(** * NEGradient-GenePriority: evaluation, table generation and side-information loading

    A shallow embedding of
    - [NEGradient_GenePriority/evaluation/evaluation.py] (class [Evaluation]),
    - [NEGradient_GenePriority/postprocessing/dataframes.py]
      ([generate_auc_loss_table], [generate_bedroc_table]),
    - [NEGradient_GenePriority/preprocessing/side_information_loader.py]
      (class [SideInformationLoader]),
    together with the part of Python, numpy, pandas and scipy these files
    call: exceptions, n-dimensional arrays in row-major order, data frames
    as named columns, and sparse matrices in coordinate format.

    Numbers.  A finite float is the rational it denotes ([Qc], rationals in
    lowest terms, so that equal numbers are equal terms); arithmetic on
    them is exact.  [NaN] stands for the result numpy gives to the mean of
    nothing.  Square root and the printing of a float are taken as
    parameters where they occur.

    Sizes.  The indices of a scipy matrix are 64-bit integers: a shape
    with a dimension of [2^63] or more is refused with [OverflowError].
    Memory is not bounded: an array the machine could not hold is
    outside the model. *)

From stdpp Require Import base option numbers list strings pretty gmap.
From Stdlib Require Import QArith Qcanon Qround Qabs.

Local Open Scope Z_scope.

(** ** Exceptions and results *)

(** The exception classes that occur, each with its message. *)
Inductive exn : Type :=
| TypeError (msg : string)
| ValueError (msg : string)
| IndexError (msg : string)
| OverflowError (msg : string).

(** What a call yields: a value, or the exception it raised. *)
Inductive result (A : Type) : Type :=
| Ok (a : A)
| Raise (e : exn).
Arguments Ok {A} a.
Arguments Raise {A} e.

#[global] Instance exn_eq_dec : EqDecision exn.
Proof. solve_decision. Defined.
#[global] Instance result_eq_dec {A} `{EqDecision A} : EqDecision (result A).
Proof. solve_decision. Defined.

Definition is_ValueError {A} (r : result A) : Prop :=
  ∃ msg, r = Raise (ValueError msg).
Definition is_TypeError {A} (r : result A) : Prop :=
  ∃ msg, r = Raise (TypeError msg).
Definition is_IndexError {A} (r : result A) : Prop :=
  ∃ msg, r = Raise (IndexError msg).
Definition returns {A} (r : result A) : Prop :=
  ∃ a, r = Ok a.

#[global] Instance result_ret : MRet result := λ A a, Ok a.
#[global] Instance result_bind : MBind result := λ A B f m,
  match m with
  | Ok a => f a
  | Raise e => Raise e
  end.
#[global] Instance result_fmap : FMap result := λ A B f m,
  match m with
  | Ok a => Ok (f a)
  | Raise e => Raise e
  end.

(** A list comprehension whose body may raise: the elements are evaluated
    from left to right and the first exception ends the evaluation. *)
Fixpoint comprehension {A B} (f : A → result B) (l : list A) : result (list B) :=
  match l with
  | [] => Ok []
  | a :: l' => b ← f a; bs ← comprehension f l'; Ok (b :: bs)
  end.

(** ** Floats *)

Inductive float : Type :=
| Fin (q : Qc)
| NaN.

#[global] Instance float_eq_dec : EqDecision float.
Proof. solve_decision. Defined.

Definition float_of_nat (n : nat) : float := Fin (Q2Qc (inject_Z (Z.of_nat n))).

Definition fadd (x y : float) : float :=
  match x, y with
  | Fin a, Fin b => Fin (a + b)%Qc
  | _, _ => NaN
  end.

Definition fsub (x y : float) : float :=
  match x, y with
  | Fin a, Fin b => Fin (a - b)%Qc
  | _, _ => NaN
  end.

Definition fmul (x y : float) : float :=
  match x, y with
  | Fin a, Fin b => Fin (a * b)%Qc
  | _, _ => NaN
  end.

(** Division.  In the code below the divisor is always a length, and a
    zero length comes with a zero sum: [0.0 / 0] is [nan]. *)
Definition fdiv (x y : float) : float :=
  match x, y with
  | Fin a, Fin b => if bool_decide (b = 0%Qc) then NaN else Fin (a / b)%Qc
  | _, _ => NaN
  end.

Definition fabs (x : float) : float :=
  match x with
  | Fin a => Fin (if bool_decide (a < 0)%Qc then (- a)%Qc else a)
  | NaN => NaN
  end.

Definition fsum (l : list float) : float := foldr fadd (Fin 0%Qc) l.

(** [np.mean] of a one-dimensional sequence. *)
Definition np_mean (l : list float) : float :=
  fdiv (fsum l) (float_of_nat (length l)).

Section Sqrt.
(** The square root of a non-negative float, as the platform computes it. *)
Variable sqrt : Qc → Qc.

Definition fsqrt (x : float) : float :=
  match x with
  | Fin a => if bool_decide (a < 0)%Qc then NaN else Fin (sqrt a)
  | NaN => NaN
  end.

(** [np.std] of a one-dimensional sequence:
    [sqrt(mean(abs(x - x.mean())**2))]. *)
Definition np_std (l : list float) : float :=
  let m := np_mean l in
  fsqrt (np_mean (map (λ x, let d := fabs (fsub x m) in fmul d d) l)).
End Sqrt.

(** ** Arrays *)

(** An n-dimensional array: its shape and its elements in row-major order. *)
Record ndarray (A : Type) : Type := mk_ndarray {
  shape : list nat;
  flat : list A
}.
Arguments mk_ndarray {A} shape flat.
Arguments shape {A} _.
Arguments flat {A} _.

Definition size_of (sh : list nat) : nat := foldr Nat.mul 1%nat sh.


(** [a[i, j]] of a two-dimensional array; [None] where numpy raises
    [IndexError]. *)
Definition item2 {A} (a : ndarray A) (i j : nat) : option A :=
  match shape a with
  | [n; m] => if bool_decide (i < n ∧ j < m)%nat then flat a !! (i * m + j)%nat else None
  | _ => None
  end.

(** [np.array(rows)] of a list of lists of scalars.  An empty list gives
    the one-dimensional empty array; rows of one length [k] give an
    array of shape [(len(rows), k)]; rows of different lengths are
    refused. *)
Definition np_array2 {A} (rows : list (list A)) : result (ndarray A) :=
  match rows with
  | [] => Ok (mk_ndarray [0%nat] [])
  | r :: _ =>
      if bool_decide (Forall (λ r', length r' = length r) rows)
      then Ok (mk_ndarray [length rows; length r] (concat rows))
      else Raise (ValueError "setting an array element with a sequence. The requested array has an inhomogeneous shape")
  end.

(** [np.mean(rows, axis=0)] of a list of one-dimensional arrays: the list
    becomes an array first.  Of an empty list the mean is the scalar
    [nan]; of [n] rows of one length [m] it is the array of the [m]
    means of the columns. *)
Definition np_mean_axis0 (rows : list (list float)) : result (ndarray float) :=
  a ← np_array2 rows;
  match shape a with
  | [n] => Ok (mk_ndarray [] [np_mean (flat a)])
  | [n; m] =>
      Ok (mk_ndarray [m]
            ((λ k, np_mean (omap (λ i, flat a !! (i * m + k)%nat) (seq 0 n))) <$> seq 0 m))
  | _ => Raise (ValueError "axis 0 is out of bounds for array of dimension 0")
  end.

(** ** evaluation/evaluation.py *)

Module Evaluation.

(** Modelled from the spec: the class [Results] of [evaluation/results.py],
    which is not among the sources.  It holds the labels and the
    predictions of one fold, and [*result_per_fold] passes them, in this
    order, as the two positional arguments of a scorer. *)
Record Results : Type := mk_Results {
  y_true : list Z;
  y_pred : list float
}.

(** A Python object as [__init__] meets it in its argument: an instance
    of [Results], or an instance of another class, of which only the
    name is kept. *)
Inductive pyobj : Type :=
| PyResults (r : Results)
| PyOther (class_name : string).

Definition isinstance_Results (o : pyobj) : bool :=
  match o with
  | PyResults _ => true
  | PyOther _ => false
  end.

(** [str(type(o))] *)
Definition type_repr (o : pyobj) : string :=
  match o with
  | PyResults _ => "<class 'NEGradient_GenePriority.evaluation.results.Results'>"
  | PyOther c => "<class '" +:+ c +:+ "'>"
  end.

Record Evaluation : Type := mk_Evaluation {
  results : list pyobj
}.

(** The loop of [__init__], from index [i] on. *)
Fixpoint check_results (i : nat) (l : list pyobj) : result unit :=
  match l with
  | [] => Ok tt
  | o :: l' =>
      if isinstance_Results o then check_results (S i) l'
      else Raise (TypeError
             ("Invalid type at index " +:+ pretty i +:+ ": Expected `Results`, but got "
              +:+ type_repr o +:+ ". Ensure all elements in the `results` list are instances of the `Results` class."))
  end.

Definition __init__ (results : list pyobj) : result Evaluation :=
  _ ← check_results 0 results;
  Ok (mk_Evaluation results).

(** [*result_per_fold]: the two positional arguments a fold unpacks to.
    Objects of other classes never pass [__init__]; the model gives
    them no iteration protocol. *)
Definition star (o : pyobj) : result (list Z * list float) :=
  match o with
  | PyResults r => Ok (y_true r, y_pred r)
  | PyOther c => Raise (TypeError ("Value after * must be an iterable, not " +:+ c))
  end.

Section Scorers.
(** [NEGradient_GenePriority.evaluation.metrics.bedroc_score(y_true,
    y_pred, decreasing, alpha)]; [metrics.py] is not among the sources. *)
Variable bedroc_score : list Z → list float → bool → float → result float.
(** [sklearn.metrics.roc_auc_score(y_true, y_score)] *)
Variable roc_auc_score : list Z → list float → result float.
Variable sqrt : Qc → Qc.

(** [self.alphas] is annotated in the class body and assigned by the
    user of the class; the methods read it through [self]. *)
Definition compute_bedroc_scores (alphas : list float) (self : Evaluation)
  : result (ndarray float) :=
  rows ← comprehension
    (λ result_per_fold,
       comprehension
         (λ alpha, '(yt, yp) ← star result_per_fold; bedroc_score yt yp true alpha)
         alphas)
    (results self);
  np_array2 rows.

Definition compute_avg_auc_loss (self : Evaluation) : result (float * float) :=
  auc_loss ← comprehension
    (λ result_per_fold,
       '(yt, yp) ← star result_per_fold;
       s ← roc_auc_score yt yp;
       Ok (fsub (float_of_nat 1) s))
    (results self);
  Ok (np_mean auc_loss, np_std sqrt auc_loss).

End Scorers.

Section Curve.
(** [sklearn.metrics.roc_curve(y_true, y_score, pos_label=1,
    drop_intermediate=True)]: false positive rates, true positive rates
    and thresholds. *)
Variable roc_curve : list Z → list float → result (list float * list float * list float).

(** [min(nb_th, n)], where [nb_th] starts as [np.inf] ([None]). *)
Definition min_nb_th (nb_th : option nat) (n : nat) : nat :=
  match nb_th with
  | None => n
  | Some m => Nat.min m n
  end.

(** The loop of [compute_roc_curve]. *)
Fixpoint roc_loop (results : list pyobj) (fpr tpr : list (list float)) (nb_th : option nat)
  : result (list (list float) * list (list float) * option nat) :=
  match results with
  | [] => Ok (fpr, tpr, nb_th)
  | result_per_fold :: rest =>
      '(yt, yp) ← star result_per_fold;
      '(fpr_fold, tpr_fold, threshold) ← roc_curve yt yp;
      roc_loop rest (fpr ++ [fpr_fold]) (tpr ++ [tpr_fold])
        (Some (min_nb_th nb_th (length threshold)))
  end.

(** [elem[:nb_th]]; a slice up to [np.inf] is a [TypeError]. *)
Definition slice_to (nb_th : option nat) (elem : list float) : result (list float) :=
  match nb_th with
  | Some n => Ok (take n elem)
  | None => Raise (TypeError "slice indices must be integers or None or have an __index__ method")
  end.

Definition compute_roc_curve (self : Evaluation) : result (ndarray float * ndarray float) :=
  '(fpr, tpr, nb_th) ← roc_loop (results self) [] [] None;
  fpr_rows ← comprehension (slice_to nb_th) fpr;
  fpr' ← np_mean_axis0 fpr_rows;
  tpr_rows ← comprehension (slice_to nb_th) tpr;
  tpr' ← np_mean_axis0 tpr_rows;
  Ok (fpr', tpr').

End Curve.

(** The mean over the folds, in the words of the specification: the sum
    of [f] over the folds divided by their number. *)
Definition mean_over_folds (f : Qc → Qc) (folds : list Qc) : Qc :=
  (foldr (λ s acc, f s + acc) 0 folds / Q2Qc (inject_Z (Z.of_nat (length folds))))%Qc.

End Evaluation.

(** ** More of numpy: slices, reductions along an axis, stacking, reshaping *)

(** [a[:, j]] of a two-dimensional array. *)
Definition column_slice {A} (a : ndarray A) (j : nat) : result (list A) :=
  match shape a with
  | [n; m] =>
      if bool_decide (j < m)%nat
      then Ok (omap (λ i, flat a !! (i * m + j)%nat) (seq 0 n))
      else Raise (IndexError ("index " +:+ pretty j +:+ " is out of bounds for axis 1 with size " +:+ pretty m))
  | _ => Raise (IndexError "too many indices for array")
  end.

(** [a.mean(axis=1)] and [a.std(axis=1)]: the reduction [f] applied along
    the second axis.  For an array of shape [(s0, s1, ...rest)] the
    result has shape [(s0, ...rest)]. *)
Definition reduce_axis1 {A B} (f : list A → B) (a : ndarray A) : result (ndarray B) :=
  match shape a with
  | s0 :: s1 :: rest =>
      let p := size_of rest in
      Ok (mk_ndarray (s0 :: rest)
            (flat_map
               (λ i, map (λ k, f (omap (λ d, flat a !! ((i * s1 + d) * p + k)%nat) (seq 0 s1)))
                         (seq 0 p))
               (seq 0 s0)))
  | _ => Raise (ValueError ("axis 1 is out of bounds for array of dimension " +:+ pretty (length (shape a))))
  end.

(** The [i]-th block of [n] consecutive elements. *)
Definition block {A} (l : list A) (n i : nat) : list A := take n (drop (i * n) l).

(** [np.atleast_1d(a)] *)
Definition atleast_1d {A} (a : ndarray A) : ndarray A :=
  match shape a with
  | [] => mk_ndarray [1%nat] (flat a)
  | _ => a
  end.

(** [np.hstack((a, b))]: one-dimensional arrays are joined end to end,
    arrays of more dimensions along their second axis. *)
Definition np_hstack {A} (a b : ndarray A) : result (ndarray A) :=
  let a := atleast_1d a in
  let b := atleast_1d b in
  match shape a, shape b with
  | [n1], [n2] => Ok (mk_ndarray [(n1 + n2)%nat] (flat a ++ flat b))
  | s0 :: s1 :: rest, t0 :: t1 :: rest' =>
      if bool_decide (s0 = t0 ∧ rest = rest')
      then
        let p := size_of rest in
        Ok (mk_ndarray (s0 :: (s1 + t1)%nat :: rest)
              (flat_map (λ i, block (flat a) (s1 * p) i ++ block (flat b) (t1 * p) i) (seq 0 s0)))
      else Raise (ValueError "all the input array dimensions except for the concatenation axis must match exactly")
  | _, _ => Raise (ValueError "all the input arrays must have same number of dimensions")
  end.

(** [a.reshape((-1, c))] *)
Definition reshape_rows {A} (a : ndarray A) (c : nat) : result (ndarray A) :=
  let n := length (flat a) in
  if bool_decide (c = 0%nat ∨ (n `mod` c)%nat ≠ 0%nat)
  then Raise (ValueError ("cannot reshape array of size " +:+ pretty n +:+ " into shape (" +:+ pretty c +:+ ")"))
  else Ok (mk_ndarray [(n `div` c)%nat; c] (flat a)).

(** ** pandas: data frames *)

(** A row label: a name, or a position of the default index. *)
Inductive label : Type :=
| LabelStr (s : string)
| LabelInt (i : nat).

(** A data frame: its row labels and its columns, each a name with one
    cell per row. *)
Record DataFrame (A : Type) : Type := mk_DataFrame {
  index : list label;
  columns : list (string * list A)
}.
Arguments mk_DataFrame {A} index columns.
Arguments index {A} _.
Arguments columns {A} _.

(** [len(df)] *)
Definition len {A} (df : DataFrame A) : nat := length (index df).
(** [df.shape[1]] *)
Definition ncols {A} (df : DataFrame A) : nat := length (columns df).
(** [df.columns] *)
Definition column_names {A} (df : DataFrame A) : list string := fst <$> columns df.

(** Every column of a data frame has one cell per row. *)
Definition DataFrame_wf {A} (df : DataFrame A) : Prop :=
  Forall (λ c : string * list A, length c.2 = len df) (columns df).

(** [df.iat[i, j]] *)
Definition iat {A} (df : DataFrame A) (i j : nat) : option A :=
  c ← columns df !! j; c.2 !! i.

(** The cells of row [i], from left to right. *)
Definition row_cells {A} (df : DataFrame A) (i : nat) : list A :=
  omap (λ c : string * list A, c.2 !! i) (columns df).

(** [pd.DataFrame(data, columns=cols, index=idx)] for an array [data].
    A one-dimensional array is a single column. *)
Definition pd_DataFrame {A} (data : ndarray A) (cols : list string) (idx : list label)
  : result (DataFrame A) :=
  match shape data with
  | [n] =>
      if bool_decide (n = length idx ∧ length cols = 1%nat)
      then Ok (mk_DataFrame idx ((λ c, (c, flat data)) <$> cols))
      else Raise (ValueError "Shape of passed values does not match the indices")
  | [n; m] =>
      if bool_decide (n = length idx ∧ m = length cols)
      then Ok (mk_DataFrame idx
                 (imap (λ j c, (c, omap (λ i, flat data !! (i * m + j)%nat) (seq 0 n))) cols))
      else Raise (ValueError "Shape of passed values does not match the indices")
  | _ => Raise (ValueError "Must pass 2-d input")
  end.

(** [df.map(f)]: [f] applied to every cell. *)
Definition DataFrame_map {A B} (f : A → B) (df : DataFrame A) : DataFrame B :=
  mk_DataFrame (index df) ((λ c : string * list A, (c.1, f <$> c.2)) <$> columns df).

(** [df.to_numpy()]: the cells as a two-dimensional array. *)
Definition to_numpy {A} (df : DataFrame A) : ndarray A :=
  mk_ndarray [len df; ncols df] (flat_map (row_cells df) (seq 0 (len df))).

(** [df[name] = value] for a one-dimensional [value]: every column called
    [name] is overwritten; when there is none, a column is appended. *)
Definition setitem {A} (df : DataFrame A) (name : string) (value : list A)
  : result (DataFrame A) :=
  if bool_decide (length value = len df)
  then
    if bool_decide (name ∈ column_names df)
    then Ok (mk_DataFrame (index df)
               ((λ c : string * list A, if bool_decide (c.1 = name) then (c.1, value) else c)
                <$> columns df))
    else Ok (mk_DataFrame (index df) (columns df ++ [(name, value)]))
  else Raise (ValueError "Length of values does not match length of index").

(** ** postprocessing/dataframes.py *)

Module Dataframes.

Definition default_avg_auc_loss_name : string := "Averaged 1-AUC error".
Definition default_std_auc_loss_name : string := "Std 1-AUC error".
Definition default_avg_bedroc_score_name : string := "Averaged BEDROC score".
Definition default_std_bedroc_score_name : string := "Std BEDROC score".

Section Tables.
Variable sqrt : Qc → Qc.
(** [f"{x:.2e}"] *)
Variable format_2e : float → string.

Definition generate_auc_loss_table
    (auc_loss : ndarray float) (model_names : list string)
    (avg_auc_loss_name std_auc_loss_name : string)
  : result (DataFrame string) :=
  dataframe ← pd_DataFrame auc_loss [avg_auc_loss_name; std_auc_loss_name]
                 (LabelStr <$> model_names);
  Ok (DataFrame_map format_2e dataframe).

(** The pair of column names of one alpha label. *)
Definition bedroc_column_pair (avg_bedroc_score_name std_bedroc_score_name alpha : string)
  : list string :=
  [avg_bedroc_score_name +:+ " (top " +:+ alpha +:+ ")";
   std_bedroc_score_name +:+ " (top " +:+ alpha +:+ ")"].

(** [alpha_map] is a dictionary: its items in insertion order. *)
Definition generate_bedroc_table
    (bedroc : ndarray float) (model_names : list string)
    (alpha_map : list (float * string))
    (avg_bedroc_score_name std_bedroc_score_name : string)
  : result (DataFrame string) :=
  match shape bedroc with
  | [] => Raise (IndexError "tuple index out of range")
  | s0 :: _ =>
      if bool_decide (length alpha_map ≠ s0) then Raise (ValueError "")
      else
        avg ← reduce_axis1 np_mean bedroc;
        std ← reduce_axis1 (np_std sqrt) bedroc;
        stacked ← np_hstack avg std;
        bedroc' ← reshape_rows stacked (length alpha_map * 2);
        let column_names :=
          flat_map (λ alpha, bedroc_column_pair avg_bedroc_score_name std_bedroc_score_name alpha)
                   (alpha_map.*2) in
        dataframe ← pd_DataFrame bedroc' column_names (LabelStr <$> model_names);
        Ok (DataFrame_map format_2e dataframe)
  end.

End Tables.
End Dataframes.

(** ** scipy.sparse *)

(** [int(x)] of a finite float, and the cast of a float to an index type:
    the fraction is dropped. *)
Definition py_int (q : Qc) : Z := Z.quot (Qnum q) (Z.pos (Qden q)).

(** A matrix in coordinate format: three parallel arrays. *)
Record coo_matrix : Type := mk_coo_matrix {
  coo_shape : Z * Z;
  coo_row : list Z;
  coo_col : list Z;
  coo_data : list Qc
}.



(** The indices of a sparse matrix are 64-bit integers: a matrix has
    fewer than [2^63] rows and fewer than [2^63] columns. *)
Definition index_limit : Z := 9223372036854775808.

(** [sp.coo_matrix((data, (row, col)), shape=shape)]: the shape is
    checked, the index type is chosen for its greater dimension, which
    raises [OverflowError] when that dimension does not fit in 64
    bits, and the coordinates are cast to an integer type and checked
    against the shape, the row indices before the column indices and
    the upper bounds before the lower ones.  The refusal of a
    coordinate is a [ValueError]; its wording differs between releases
    of scipy. *)
Definition sp_coo_matrix (data row col : list Qc) (shape : Z * Z) : result coo_matrix :=
  if bool_decide (shape.1 < 0 ∨ shape.2 < 0)
  then Raise (ValueError "'shape' elements cannot be negative")
  else if bool_decide (index_limit ≤ shape.1 ∨ index_limit ≤ shape.2)
  then Raise (OverflowError "Python int too large to convert to C long")
  else if bool_decide (length row ≠ length data ∨ length col ≠ length data)
  then Raise (ValueError "row, column, and data array must all be the same length")
  else
    let r := py_int <$> row in
    let c := py_int <$> col in
    if bool_decide (Exists (λ i, shape.1 ≤ i) r)
    then Raise (ValueError "row index exceeds matrix dimensions")
    else if bool_decide (Exists (λ j, shape.2 ≤ j) c)
    then Raise (ValueError "column index exceeds matrix dimensions")
    else if bool_decide (Exists (λ i, i < 0) r)
    then Raise (ValueError "negative row index found")
    else if bool_decide (Exists (λ j, j < 0) c)
    then Raise (ValueError "negative column index found")
    else Ok (mk_coo_matrix shape r c data).

(** A matrix in a compressed format, by what it stores: at most one value
    per position. *)
Record spmatrix : Type := mk_spmatrix {
  sp_shape : Z * Z;
  sp_entries : gmap (Z * Z) Qc
}.

(** [m.tocsr()]: entries at one position are added up. *)
Definition tocsr (m : coo_matrix) : spmatrix :=
  mk_spmatrix (coo_shape m)
    (foldl (λ (acc : gmap (Z * Z) Qc) (e : Z * Z * Qc),
              <[e.1 := (default 0%Qc (acc !! e.1) + e.2)%Qc]> acc)
           ∅ (zip (zip (coo_row m) (coo_col m)) (coo_data m))).

(** The blocks of [sp.hstack] side by side: block [b] starts at column
    [off]. *)
Fixpoint hstack_entries (off : Z) (blocks : list spmatrix) : gmap (Z * Z) Qc :=
  match blocks with
  | [] => ∅
  | b :: bs =>
      kmap (λ p : Z * Z, (p.1, p.2 + off)) (sp_entries b)
        ∪ hstack_entries (off + (sp_shape b).2) bs
  end.

Section Hstack.
(** What [sp.hstack([])] raises; its class differs between releases of
    scipy.  The blocks must have one height, and the matrix they make
    must fit the 64-bit indices like every other. *)
Variable hstack_nothing : exn.

Definition sp_hstack (blocks : list spmatrix) : result spmatrix :=
  match blocks with
  | [] => Raise hstack_nothing
  | b :: _ =>
      if bool_decide (Forall (λ b', (sp_shape b').1 = (sp_shape b).1) blocks)
      then
        let shape := ((sp_shape b).1, foldr (λ b' n, (sp_shape b').2 + n) 0 blocks) in
        if bool_decide (index_limit ≤ shape.1 ∨ index_limit ≤ shape.2)
        then Raise (OverflowError "Python int too large to convert to C long")
        else Ok (mk_spmatrix shape (hstack_entries 0 blocks))
      else Raise (ValueError "blocks[0,:] has incompatible row dimensions")
  end.
End Hstack.

(** ** preprocessing/side_information_loader.py *)

Module SideInformationLoader.

Definition Qc_max (a b : Qc) : Qc := if bool_decide (a < b)%Qc then b else a.

(** [x.max()] of a one-dimensional array. *)
Definition np_max (l : list Qc) : result Qc :=
  match l with
  | [] => Raise (ValueError "zero-size array to reduction operation maximum which has no identity")
  | x :: l' => Ok (foldl Qc_max x l')
  end.

(** [np.ones(n)] *)
Definition np_ones (n : nat) : list Qc := replicate n 1%Qc.

(** [to_coo] reads its data frame and changes nothing. *)
Definition to_coo (dataframe : DataFrame Qc) (rows : Z) : result coo_matrix :=
  let mat := to_numpy dataframe in
  data ← column_slice mat 2;
  row ← column_slice mat 0;
  col ← column_slice mat 1;
  col' ← column_slice mat 1;
  mx ← np_max col';
  sp_coo_matrix data row col (rows + 1, py_int mx + 1).

(** *** Objects and references

    A data frame is an object: a variable holds a reference to it, and
    an assignment to one of its columns is seen through every
    reference.  The store maps references to the frames they denote; a
    reference the store does not hold is read as [None]. *)
Abbreviation loc := nat (only parsing).
Abbreviation store := (gmap nat (DataFrame Qc)) (only parsing).

(** A method that may change the store and may raise; what it changed
    before raising stays changed. *)
Definition M (A : Type) : Type := store → result A * store.

Definition ret {A} (a : A) : M A := λ h, (Ok a, h).
Definition bind {A B} (m : M A) (f : A → M B) : M B :=
  λ h, match m h with
       | (Ok a, h') => f a h'
       | (Raise e, h') => (Raise e, h')
       end.
Definition lift {A} (r : result A) : M A := λ h, (r, h).
Definition raise {A} (e : exn) : M A := λ h, (Raise e, h).
Definition deref (l : loc) : M (DataFrame Qc) :=
  λ h, match h !! l with
       | Some df => (Ok df, h)
       | None => (Raise (TypeError "'NoneType' object is not a DataFrame"), h)
       end.
Definition assign (l : loc) (df : DataFrame Qc) : M unit :=
  λ h, (Ok tt, <[l := df]> h).

Notation "x ←ₘ m ; k" := (bind m (λ x, k))
  (at level 20, m at level 100, k at level 200, right associativity, only parsing).

Definition default_implicit_1s_name : string := "implicit 1s".

Definition add_implicit_ones (dataframe : loc) (implicit_1s_name : string) : M loc :=
  df ←ₘ deref dataframe;
  df' ←ₘ lift (setitem df implicit_1s_name (np_ones (len df)));
  _ ←ₘ assign dataframe df';
  ret dataframe.

Definition column_count_message : string :=
  "DataFrame must have 3 or 2 columns. First column is the row index, the second is the column index and the optional third column is the score. By default the score is 1.".

(** The body of the loop of [__call__] for one data frame: the block it
    appends to [side_information]. *)
Definition convert (dataframe : loc) (rows : Z) : M spmatrix :=
  df ←ₘ deref dataframe;
  dataframe' ←ₘ (if bool_decide (ncols df = 2%nat)
                 then add_implicit_ones dataframe default_implicit_1s_name
                 else if bool_decide (ncols df ≠ 3%nat)
                 then raise (ValueError column_count_message)
                 else ret dataframe);
  df' ←ₘ deref dataframe';
  m ←ₘ lift (to_coo df' rows);
  ret (tocsr m).

Fixpoint call_loop (side_info_dataframes : list loc) (rows : Z)
    (side_information : list spmatrix) : M (list spmatrix) :=
  match side_info_dataframes with
  | [] => ret side_information
  | dataframe :: rest =>
      b ←ₘ convert dataframe rows;
      call_loop rest rows (side_information ++ [b])
  end.

Section Call.
Variable hstack_nothing : exn.

Definition __call__ (side_info_dataframes : list loc) (rows : Z) : M spmatrix :=
  side_information ←ₘ call_loop side_info_dataframes rows [];
  lift (sp_hstack hstack_nothing side_information).
End Call.

End SideInformationLoader.

(** ** pandas, for the log of the loader *)

(** [pd.DataFrame(pairs, columns=[c0, c1])] for a list of pairs: one row
    per pair under a fresh range index; an empty list gives the two
    columns without rows. *)
Definition pd_DataFrame_pairs {A} (pairs : list (A * A)) (c0 c1 : string) : DataFrame A :=
  mk_DataFrame (LabelInt <$> seq 0 (length pairs)) [(c0, pairs.*1); (c1, pairs.*2)].

(** [df.index = labels] *)
Definition set_index {A} (df : DataFrame A) (labels : list label) : result (DataFrame A) :=
  if bool_decide (length labels = len df)
  then Ok (mk_DataFrame labels (columns df))
  else Raise (ValueError ("Length mismatch: Expected axis has " +:+ pretty (len df)
                          +:+ " elements, new values have " +:+ pretty (length labels)
                          +:+ " elements")).

(** ** The loader as an object

    The attributes of a [SideInformationLoader], and the methods that
    read or set them.  The logger is kept by the debug calls it has
    received. *)

Module LoaderObject.
Import SideInformationLoader.

(** What a debug call passes after its format: a string, or the shape
    of a matrix. *)
Inductive arg : Type :=
| ArgStr (s : string)
| ArgShape (shape : Z * Z).

(** The debug calls received, the first call first. *)
Definition Logger : Type := list (string * list arg).

Record Loader : Type := mk_Loader {
  logger : Logger;
  nb_genes : Z;
  nb_diseases : Z;
  gene_side_information : option spmatrix;
  disease_side_information : option spmatrix
}.

Definition __init__ (logger : Logger) (nb_genes nb_diseases : Z) : Loader :=
  mk_Loader logger nb_genes nb_diseases None None.


(** [self.logger.debug(msg, *args)] *)
Definition debug (self : Loader) (msg : string) (args : list arg) : Loader :=
  mk_Loader (logger self ++ [(msg, args)]) (nb_genes self) (nb_diseases self)
    (gene_side_information self) (disease_side_information self).

(** [self.gene_side_information = mat] *)
Definition set_gene_side_information (self : Loader) (mat : spmatrix) : Loader :=
  mk_Loader (logger self) (nb_genes self) (nb_diseases self)
    (Some mat) (disease_side_information self).

(** [self.disease_side_information = mat] *)
Definition set_disease_side_information (self : Loader) (mat : spmatrix) : Loader :=
  mk_Loader (logger self) (nb_genes self) (nb_diseases self)
    (gene_side_information self) (Some mat).

Definition newline : string := String (Ascii.ascii_of_nat 10) "".

Definition loaded_message : string :=
  "Side information dataframes loaded successfully. " +:+ newline +:+ "%s" +:+ newline.

Section Process.
Variable hstack_nothing : exn.
(** [pd.read_csv(path)]: the frame of the file, or what reading it
    raises. *)
Variable read_csv : string → result (DataFrame Qc).
(** [f"{x:_}"] *)
Variable format_underscore : Z → string.
(** [df.to_markdown()] *)
Variable to_markdown : DataFrame string → string.

(** The table of the shapes that is logged; [names], when it is given
    and not empty, becomes its index. *)
Definition log_table (shapes : list (Z * Z)) (names : option (list string))
  : result (DataFrame string) :=
  let log_df :=
    DataFrame_map format_underscore
      (pd_DataFrame_pairs shapes "number of rows" "number of columns") in
  match names with
  | Some (name :: names') => set_index log_df (LabelStr <$> name :: names')
  | _ => Ok log_df
  end.

(** Every [pd.read_csv] makes a new frame: the frames of the gene files
    are the objects [0, 1, ...], those of the disease files follow.  The
    method returns nothing; the loader is given back as the method left
    it, also when it raised. *)
Definition process_side_information (self : Loader)
    (gene_side_info_paths disease_side_info_paths : list string)
    (names : option (list string)) : result unit * Loader :=
  match comprehension read_csv gene_side_info_paths with
  | Raise e => (Raise e, self)
  | Ok gene_dataframes =>
  match comprehension read_csv disease_side_info_paths with
  | Raise e => (Raise e, self)
  | Ok disease_dataframes =>
  let shapes :=
    (λ dataframe : DataFrame Qc, (Z.of_nat (len dataframe), Z.of_nat (ncols dataframe)))
      <$> (gene_dataframes ++ disease_dataframes) in
  match log_table shapes names with
  | Raise e => (Raise e, self)
  | Ok log_df =>
  let self := debug self loaded_message [ArgStr (to_markdown log_df)] in
  let h : store := map_seq 0 (gene_dataframes ++ disease_dataframes) in
  let gene_refs := seq 0 (length gene_dataframes) in
  let disease_refs := seq (length gene_dataframes) (length disease_dataframes) in
  match __call__ hstack_nothing gene_refs (nb_genes self) h with
  | (Raise e, _) => (Raise e, self)
  | (Ok mat, h) =>
  let self := set_gene_side_information self mat in
  let self := debug self "Gene side information matrix has shape: %s" [ArgShape (sp_shape mat)] in
  match __call__ hstack_nothing disease_refs (nb_diseases self) h with
  | (Raise e, _) => (Raise e, self)
  | (Ok mat, _) =>
  let self := set_disease_side_information self mat in
  let self := debug self "Disease side information matrix has shape: %s"
                [ArgShape (sp_shape mat)] in
  let self := debug self
                "Processed gene-side information and disease-side information successfully." [] in
  (Ok tt, self)
  end end end end end.

End Process.
End LoaderObject.

(** ** Scorers and number functions for running the model

    The evaluation takes its scorers, the square root and the printing
    of floats as parameters.  These instances make it run. *)

Module Reference.

(** The area under the ROC curve of binary labels (1 is the positive
    class): the share of the pairs of a positive and a negative sample
    that the scores order correctly, a tie counting one half.  Like
    sklearn's [roc_auc_score] it refuses labels of one class only. *)
Definition pair_credit (p n : float) : Qc :=
  match p, n with
  | Fin a, Fin b =>
      if bool_decide (b < a)%Qc then 1%Qc
      else if bool_decide (a = b) then Q2Qc (1 # 2) else 0%Qc
  | _, _ => 0%Qc
  end.

Definition pairwise_auc (y_true : list Z) (y_score : list float) : result float :=
  if bool_decide (length y_true ≠ length y_score)
  then Raise (ValueError "Found input variables with inconsistent numbers of samples")
  else if bool_decide (Exists (λ x, x = NaN) y_score)
  then Raise (ValueError "Input contains NaN.")
  else
    let samples := zip y_true y_score in
    let pos := (filter (λ s : Z * float, s.1 = 1) samples).*2 in
    let neg := (filter (λ s : Z * float, s.1 ≠ 1) samples).*2 in
    if bool_decide (pos = [] ∨ neg = [])
    then Raise (ValueError "Only one class present in y_true. ROC AUC score is not defined in that case.")
    else
      Ok (fdiv (Fin (foldr Qcplus 0%Qc (p ← pos; n ← neg; [pair_credit p n])))
               (float_of_nat (length pos * length neg))).

(** A stand-in for [bedroc_score]: alpha times the share of positives
    among the samples.  It only serves to run [compute_bedroc_scores]. *)
Definition share_scorer (y_true : list Z) (y_pred : list float) (decreasing : bool)
    (alpha : float) : result float :=
  if bool_decide (y_true = [])
  then Raise (ValueError "no samples")
  else Ok (fmul alpha (fdiv (float_of_nat (length (filter (λ x : Z, x = 1) y_true)))
                            (float_of_nat (length y_true)))).

(** A square root by eight steps of Heron's iteration from 1. *)
Definition heron_sqrt (q : Qc) : Qc :=
  if bool_decide (q = 0%Qc) then 0%Qc
  else Nat.iter 8 (λ x, (x + q / x) / Q2Qc (2 # 1))%Qc 1%Qc.

(** [f"{x:.2e}"]: three significant digits, the last rounded half to
    even, and an exponent of at least two digits. *)
Definition round_half_even (x : Q) : Z :=
  let f := Qfloor x in
  match (x - inject_Z f ?= 1 # 2)%Q with
  | Lt => f
  | Gt => f + 1
  | Eq => if Z.even f then f else f + 1
  end.

(** The exponent [e] with [10^e ≤ x < 10^(e+1)], for positive [x]. *)
Definition decimal_exponent (x : Q) : Z :=
  let guess := Z.of_nat (String.length (pretty (Qnum x)))
               - Z.of_nat (String.length (pretty (Z.pos (Qden x)))) in
  if Qle_bool (Qpower (10 # 1) guess) x then guess else guess - 1.

Definition python_format_2e (x : float) : string :=
  match x with
  | NaN => "nan"
  | Fin q =>
      let a := Qabs q in
      let sign := if bool_decide (q < 0)%Qc then "-" else "" in
      if Qeq_bool a 0 then "0.00e+00"
      else
        let e := decimal_exponent a in
        let m := round_half_even (a / Qpower (10 # 1) (e - 2)) in
        let '(m, e) := if bool_decide (m = 1000) then (100, e + 1) else (m, e) in
        let digits := pretty m in
        let exponent := pretty (Z.abs e) in
        sign +:+ String.substring 0 1 digits +:+ "." +:+ String.substring 1 2 digits
          +:+ "e" +:+ (if bool_decide (e < 0) then "-" else "+")
          +:+ (if bool_decide (Z.abs e < 10) then "0" else "") +:+ exponent
  end.

(** A stand-in for [roc_curve] on samples given by decreasing score:
    the origin and one point per sample.  No point is dropped, and the
    first threshold, infinite in sklearn, is kept as [nan]. *)
Definition ranked_curve (y_true : list Z) (y_score : list float)
  : result (list float * list float * list float) :=
  if bool_decide (length y_true ≠ length y_score)
  then Raise (ValueError "Found input variables with inconsistent numbers of samples")
  else
    let share (P : Z → bool) (k : nat) :=
      fdiv (float_of_nat (length (List.filter P (take k y_true))))
           (float_of_nat (length (List.filter P y_true))) in
    let ks := seq 0 (S (length y_true)) in
    Ok (share (λ x, negb (x =? 1)) <$> ks, share (λ x, x =? 1) <$> ks, NaN :: y_score).

(** [f"{x:_}"]: the digits in groups of three. *)
Definition python_format_underscore (x : Z) : string :=
  let digits := String.list_ascii_of_string (pretty (Z.abs x)) in
  let n := length digits in
  let grouped :=
    concat (imap (λ i c, if bool_decide (i ≠ 0%nat ∧ ((n - i) `mod` 3 = 0)%nat)
                         then [Ascii.ascii_of_nat 95; c] else [c]) digits) in
  (if bool_decide (x < 0) then "-" else "") +:+ String.string_of_list_ascii grouped.

(** A stand-in for [to_markdown]: the cells of each row between bars,
    without the padding and the rule under the header. *)
Definition plain_markdown (df : DataFrame string) : string :=
  let line (cells : list string) := "| " +:+ String.concat " | " cells +:+ " |" in
  let name (l : label) := match l with LabelStr s => s | LabelInt i => pretty i end in
  String.concat LoaderObject.newline
    (line ("" :: column_names df) :: imap (λ i l, line (name l :: row_cells df i)) (index df)).

End Reference.

(** ** Words of the specification about the loader's data frames *)

(** The cells of column [j], from the first row to the last. *)
Definition column_values {A} (df : DataFrame A) (j : nat) : list A :=
  default [] (snd <$> columns df !! j).


(** The greatest of a non-empty list of integers. *)
Definition maximum (l : list Z) : Z := foldr Z.max (default 0 (head l)) l.

(** The greatest column index of a frame. *)
Definition max_column_index (df : DataFrame Qc) : Z :=
  maximum (py_int <$> column_values df 1).

(** The shape [to_coo] asks for has no negative dimension, and one
    that does not fit in 64 bits. *)
Definition dimensions_overflow (df : DataFrame Qc) (rows : Z) : Prop :=
  0 ≤ rows + 1 ∧ 0 ≤ max_column_index df + 1
  ∧ (index_limit ≤ rows + 1 ∨ index_limit ≤ max_column_index df + 1).

(** The frame with a score column of ones appended. *)
Definition with_ones (name : string) (df : DataFrame Qc) : DataFrame Qc :=
  mk_DataFrame (index df) (columns df ++ [(name, replicate (len df) 1%Qc)]).

(** A frame has the number of columns [__call__] asks for. *)
Definition two_or_three_columns (df : DataFrame Qc) : Prop :=
  ncols df = 2%nat ∨ ncols df = 3%nat.


(** The scores of a frame: its third column, or ones when it has but
    two columns. *)
Definition scores (df : DataFrame Qc) : list Qc :=
  if bool_decide (ncols df = 2%nat) then replicate (len df) 1%Qc else column_values df 2.


(** The frame a reference denotes in a store. *)
Definition frame_of (h : SideInformationLoader.store) (l : SideInformationLoader.loc)
  : DataFrame Qc :=
  default (mk_DataFrame [] []) (h !! l).

#[global] Instance two_or_three_columns_dec df : Decision (two_or_three_columns df).
Proof. unfold two_or_three_columns. apply _. Defined.



(** ** Words for the averaged ROC curve *)

(** The number of thresholds of the fold that has fewest. *)
Definition shortest_curve (curves : list (list float * list float * list float)) : nat :=
  match curves with
  | [] => 0%nat
  | c :: cs => foldl (λ n c', Nat.min n (length c'.2)) (length c.2) cs
  end.

(** The means, position by position, of the first [n] positions of the
    rows. *)
Definition pointwise_mean (rows : list (list float)) (n : nat) : list float :=
  (λ k, np_mean (omap (λ row : list float, row !! k) rows)) <$> seq 0 n.

(** ** Words for the score tables *)

(** The scores of one alpha and one model over the diseases, in an
    array of shape [(alphas, d, m)]. *)
Definition along_diseases (bedroc : ndarray float) (d m alpha model : nat) : list float :=
  omap (λ disease, flat bedroc !! ((alpha * d + disease) * (m * 1) + model)%nat) (seq 0 d).

(** What the cell at row [i] and column [j] of the BEDROC table is
    computed from, for [a] alphas, [d] diseases and [m] models: the
    element number [i * 2a + j], counting along the rows, of the array
    that holds per alpha the [m] means followed by the [m] standard
    deviations. *)
Definition bedroc_cell (sqrt : Qc → Qc) (bedroc : ndarray float) (a d m i j : nat) : float :=
  let q := (i * (a * 2) + j)%nat in
  let alpha := (q `div` (m + m))%nat in
  let c := (q `mod` (m + m))%nat in
  if bool_decide (c < m)%nat
  then np_mean (along_diseases bedroc d m alpha c)
  else np_std sqrt (along_diseases bedroc d m alpha (c - m)).

(** ** Words for the matrix of several frames *)

(** The number of columns of the matrix of a frame. *)
Definition width (df : DataFrame Qc) : Z := max_column_index df + 1.

(** The column at which the block of the [k]-th frame starts: the
    widths of the frames before it, added up. *)
Definition column_offset (h : SideInformationLoader.store)
    (dfs : list SideInformationLoader.loc) (k : nat) : Z :=
  foldr (λ l n, width (frame_of h l) + n) 0 (take k dfs).










(** [sp.hstack] moves the entries of a block to the right. *)
#[global] Instance shift_columns_inj (off : Z) : Inj (=) (=) (λ p : Z * Z, (p.1, p.2 + off)).
Proof. intros [a b] [c d] [= -> ?]. f_equal. lia. Qed.

(** ** Data for running the model *)

Module Examples.
Import Evaluation.

Definition qc (n : Z) (d : positive) : Qc := Q2Qc (n # d).
Definition fl (n : Z) (d : positive) : float := Fin (qc n d).

(** Two folds: in the first the positive sample is ranked between the
    two negatives, in the second above the negative. *)
Definition fold_a : Results := mk_Results [1; 0; 0] [fl 5 10; fl 7 10; fl 2 10].
Definition fold_b : Results := mk_Results [1; 0] [fl 9 10; fl 1 10].

(** The scores of the stand-in scorer on the two folds, for the alphas
    20 and 5. *)
Definition share_table (i j : nat) : float :=
  match [fold_a; fold_b] !! i, [fl 20 1; fl 5 1] !! j with
  | Some r, Some a =>
      match Reference.share_scorer (y_true r) (y_pred r) true a with
      | Ok x => x
      | Raise _ => NaN
      end
  | _, _ => NaN
  end.

(** Losses of two models: average and standard deviation. *)
Definition two_losses : ndarray float :=
  mk_ndarray [2%nat; 2%nat] [fl 1 4; fl 1 8; fl 123 1000; fl 0 1].

(** Scores for two alphas, two diseases and three models. *)
Definition score_cube : ndarray float :=
  mk_ndarray [2%nat; 2%nat; 3%nat]
    [fl 1 10; fl 2 10; fl 3 10;   fl 3 10; fl 4 10; fl 5 10;
     fl 5 10; fl 5 10; fl 5 10;   fl 7 10; fl 1 10; fl 5 10].

Definition two_alphas : list (float * string) := [(fl 2285 10, "100"); (fl 1609 10, "1%")].

(** Three columns: row index, column index, score. *)
Definition scored_frame : DataFrame Qc :=
  mk_DataFrame [LabelInt 0; LabelInt 1]
    [("gene", [qc 0 1; qc 2 1]); ("term", [qc 1 1; qc 3 1]); ("score", [qc 1 2; qc 7 1])].

(** Two columns: row index and column index. *)
Definition unscored_frame : DataFrame Qc :=
  mk_DataFrame [LabelInt 0; LabelInt 1]
    [("gene", [qc 0 1; qc 2 1]); ("term", [qc 1 1; qc 1 1])].



Definition single_frame : DataFrame Qc :=
  mk_DataFrame [LabelInt 0] [("gene", [qc 1 1]); ("term", [qc 0 1]); ("score", [qc 1 1])].

(** Two columns, the second already called "implicit 1s". *)
Definition clashing_frame : DataFrame Qc :=
  mk_DataFrame [LabelInt 0] [("gene", [qc 3 1]); ("implicit 1s", [qc 7 1])].

Definition one_column_frame : DataFrame Qc :=
  mk_DataFrame [LabelInt 0] [("gene", [qc 3 1])].

(** One row whose column index is the last 64-bit integer,
    [2^63 - 1]. *)
Definition last_index_frame : DataFrame Qc :=
  mk_DataFrame [LabelInt 0]
    [("gene", [qc 0 1]); ("term", [qc 9223372036854775807 1]); ("score", [qc 1 1])].

(** A fold whose samples are all positive. *)
Definition one_class_fold : Results := mk_Results [1; 1] [fl 5 10; fl 7 10].

(** A fold without samples. *)
Definition empty_fold : Results := mk_Results [] [].

(** Two folds with their samples by decreasing score. *)
Definition ranked_a : Results := mk_Results [1; 0; 1] [fl 9 10; fl 6 10; fl 3 10].
Definition ranked_b : Results := mk_Results [0; 1] [fl 8 10; fl 4 10].

(** The curve of the stand-in for a fold. *)
Definition curve_of (r : Results) : list float * list float * list float :=
  match Reference.ranked_curve (y_true r) (y_pred r) with
  | Ok c => c
  | Raise _ => ([], [], [])
  end.

(** Two frames behind two references. *)
Definition two_frames : SideInformationLoader.store :=
  {[0%nat := scored_frame; 1%nat := unscored_frame]}.

(** A frame of two columns and, behind it, one of a single column. *)
Definition frames_with_a_short_one : SideInformationLoader.store :=
  {[0%nat := unscored_frame; 1%nat := one_column_frame]}.

(** Files by their paths; every other path is an empty file. *)
Definition files (path : string) : result (DataFrame Qc) :=
  if bool_decide (path = "genes.csv") then Ok scored_frame
  else if bool_decide (path = "pathways.csv") then Ok unscored_frame
  else if bool_decide (path = "diseases.csv") then Ok single_frame
  else if bool_decide (path = "notes.csv") then Ok one_column_frame
  else Raise (ValueError "No columns to parse from file").

(** A loader for three genes and two diseases that has logged
    nothing. *)
Definition fresh_loader : LoaderObject.Loader := LoaderObject.__init__ [] 2 1.

End Examples.

(** * Properties *)

(** ** Results and comprehensions *)

Lemma comprehension_Forall2 {A B} (f : A → result B) (l : list A) (bs : list B) :
  Forall2 (λ a b, f a = Ok b) l bs → comprehension f l = Ok bs.
Proof.
  induction 1 as [|a b l bs Hab _ IH]; [done|].
  cbn. rewrite Hab. cbn. by rewrite IH.
Qed.

(** A comprehension whose body succeeds at every position, with the
    value [g i] at position [i]. *)
Lemma comprehension_indexed {A B} (f : A → result B) (g : nat → B) (l : list A) :
  (∀ i a, l !! i = Some a → f a = Ok (g i)) →
  comprehension f l = Ok (g <$> seq 0 (length l)).
Proof.
  revert g. induction l as [|a l IH]; intros g Hg; [done|].
  cbn. rewrite (Hg 0%nat a eq_refl). cbn.
  rewrite (IH (λ i, g (S i))); [|by intros i a' ?; apply (Hg (S i))].
  cbn. by rewrite <- fmap_S_seq, <- list_fmap_compose.
Qed.

(** ** Arrays *)

Lemma lookup_concat_uniform {A} (rows : list (list A)) (k i j : nat) :
  Forall (λ r, length r = k) rows → (j < k)%nat →
  concat rows !! (i * k + j)%nat = rows !! i ≫= (.!! j).
Proof.
  intros Hk Hj. revert i. induction Hk as [|r rows Hr _ IH]; intros i.
  - by rewrite !lookup_nil.
  - destruct i as [|i]; cbn.
    + rewrite lookup_app_l by lia. done.
    + rewrite lookup_app_r by lia.
      replace (k + i * k + j - length r)%nat with (i * k + j)%nat by lia.
      apply IH.
Qed.

Lemma np_array2_uniform {A} (rows : list (list A)) (k : nat) :
  rows ≠ [] → Forall (λ r, length r = k) rows →
  np_array2 rows = Ok (mk_ndarray [length rows; k] (concat rows)).
Proof.
  intros Hne Hk. destruct rows as [|r rows]; [done|].
  unfold np_array2. pose proof (Forall_inv Hk) as Hr. cbn in Hr.
  rewrite bool_decide_eq_true_2.
  - by rewrite Hr.
  - rewrite Hr. done.
Qed.

Lemma float_of_nat_nonzero (n : nat) :
  n ≠ 0%nat → Q2Qc (inject_Z (Z.of_nat n)) ≠ 0%Qc.
Proof.
  intros Hn Heq. apply Q2Qc_eq_iff in Heq.
  unfold Qeq in Heq. cbn in Heq. lia.
Qed.

Lemma fsum_Fin (l : list Qc) :
  fsum (Fin <$> l) = Fin (foldr Qcplus 0%Qc l).
Proof. induction l as [|q l IH]; [done|]. cbn. unfold fsum in IH. cbn in IH. by rewrite IH. Qed.

(** The mean of finitely many finite floats is their sum divided by
    their number. *)
Lemma np_mean_Fin (l : list Qc) :
  l ≠ [] →
  np_mean (Fin <$> l) = Fin (foldr Qcplus 0 l / Q2Qc (inject_Z (Z.of_nat (length l))))%Qc.
Proof.
  intros Hl. unfold np_mean. rewrite fsum_Fin, length_fmap. unfold float_of_nat, fdiv.
  rewrite bool_decide_eq_false_2; [done|].
  apply float_of_nat_nonzero. by destruct l.
Qed.

Lemma np_mean_nil : np_mean [] = NaN.
Proof. reflexivity. Qed.

(** ** Evaluation *)

Section EvaluationFacts.
Import Evaluation.

Lemma check_results_instances (i : nat) (l : list pyobj) :
  Forall (λ o, isinstance_Results o = true) l → check_results i l = Ok tt.
Proof.
  intros Hl. revert i. induction Hl as [|o l Ho _ IH]; intros i; [done|].
  cbn. by rewrite Ho.
Qed.

Lemma check_results_intruder (i : nat) (l : list pyobj) :
  Exists (λ o, isinstance_Results o = false) l → is_TypeError (check_results i l).
Proof.
  intros Hl. revert i. induction Hl as [o l Ho|o l _ IH]; intros i; cbn.
  - rewrite Ho. by eexists.
  - destruct (isinstance_Results o); [apply IH|by eexists].
Qed.

Lemma instances_or_intruder (l : list pyobj) :
  Forall (λ o, isinstance_Results o = true) l
  ∨ Exists (λ o, isinstance_Results o = false) l.
Proof.
  induction l as [|o l [IH|IH]].
  - left. constructor.
  - destruct (isinstance_Results o) eqn:Ho.
    + left. by constructor.
    + right. by constructor.
  - right. by constructor 2.
Qed.

Lemma init_instances (l : list pyobj) :
  Forall (λ o, isinstance_Results o = true) l → __init__ l = Ok (mk_Evaluation l).
Proof. intros Hl. unfold __init__. by rewrite check_results_instances. Qed.

Lemma init_of_Results (rs : list Results) :
  __init__ (PyResults <$> rs) = Ok (mk_Evaluation (PyResults <$> rs)).
Proof. apply init_instances. by apply Forall_fmap, Forall_true. Qed.

(** C8.  [Evaluation.__init__] raises [TypeError] exactly when some
    element of its argument is not an instance of [Results]; it raises
    nothing else; and when every element is an instance, the
    evaluation it builds holds the very list it was given. *)
Theorem init_TypeError_iff_not_Results (l : list Evaluation.pyobj) :
  (is_TypeError (Evaluation.__init__ l)
     ↔ Exists (λ o, Evaluation.isinstance_Results o = false) l)
  ∧ (∀ e, Evaluation.__init__ l = Raise e → ∃ msg, e = TypeError msg)
  ∧ (Forall (λ o, Evaluation.isinstance_Results o = true) l
     → Evaluation.__init__ l = Ok (Evaluation.mk_Evaluation l))
  ∧ (∀ ev, Evaluation.__init__ l = Ok ev → Evaluation.results ev = l).
Proof.
  split_and!.
  - split.
    + intros [msg Hmsg]. destruct (instances_or_intruder l) as [Hl|Hl]; [|done].
      by rewrite init_instances in Hmsg.
    + intros Hl. destruct (check_results_intruder 0 l Hl) as [msg Hmsg].
      exists msg. unfold __init__. by rewrite Hmsg.
  - intros e He. destruct (instances_or_intruder l) as [Hl|Hl].
    + by rewrite init_instances in He.
    + destruct (check_results_intruder 0 l Hl) as [msg Hmsg].
      unfold __init__ in He. rewrite Hmsg in He. cbn in He. exists msg. congruence.
  - apply init_instances.
  - intros ev. unfold __init__. destruct (check_results 0 l); cbn; [|done].
    by intros [= <-].
Qed.

Section Scorers.
Variable bedroc_score : list Z → list float → bool → float → result float.
Variable roc_auc_score : list Z → list float → result float.
Variable sqrt : Qc → Qc.

(** The losses of the folds, one per fold, when every fold has a score. *)
Lemma auc_losses (rs : list Results) (ss : list Qc) :
  Forall2 (λ r s, roc_auc_score (y_true r) (y_pred r) = Ok (Fin s)) rs ss →
  comprehension
    (λ o, '(yt, yp) ← star o; s ← roc_auc_score yt yp; Ok (fsub (float_of_nat 1) s))
    (PyResults <$> rs)
  = Ok (Fin <$> ((λ s, 1 - s)%Qc <$> ss)).
Proof.
  intros Hs. apply comprehension_Forall2.
  apply Forall2_fmap. induction Hs as [|r s rs ss Hrs _ IH]; constructor; [|done].
  cbn. rewrite Hrs. cbn. do 2 f_equal.
Qed.

Lemma foldr_mean_shape (f : Qc → Qc) (ss : list Qc) :
  foldr Qcplus 0%Qc (f <$> ss) = foldr (λ s acc, f s + acc)%Qc 0%Qc ss.
Proof. induction ss as [|s ss IH]; [done|]. cbn. by rewrite IH. Qed.

(** C1.  For an evaluation of a non-empty list of folds, each with a
    ROC-AUC score, [compute_avg_auc_loss] returns, as the first
    component of its pair, the mean over the folds of one minus the
    score of the fold. *)
Theorem compute_avg_auc_loss_is_mean_over_folds
    (rs : list Evaluation.Results) (ss : list Qc) (ev : Evaluation.Evaluation) :
  rs ≠ [] →
  Evaluation.__init__ (Evaluation.PyResults <$> rs) = Ok ev →
  Forall2 (λ r s, roc_auc_score (Evaluation.y_true r) (Evaluation.y_pred r) = Ok (Fin s)) rs ss →
  ∃ std,
    Evaluation.compute_avg_auc_loss roc_auc_score sqrt ev
    = Ok (Fin (Evaluation.mean_over_folds (λ s, 1 - s)%Qc ss), std).
Proof.
  intros Hne Hev Hs. rewrite init_of_Results in Hev. injection Hev as <-.
  eexists. unfold compute_avg_auc_loss. cbn [results].
  rewrite (auc_losses rs ss Hs). cbn.
  rewrite np_mean_Fin.
  - rewrite length_fmap, foldr_mean_shape. reflexivity.
  - apply Forall2_length in Hs. destruct ss; [|done]. by destruct rs.
Qed.

(** Without folds the average is not a number. *)
Lemma compute_avg_auc_loss_no_folds ev :
  __init__ [] = Ok ev →
  ∃ std, compute_avg_auc_loss roc_auc_score sqrt ev = Ok (NaN, std).
Proof. intros [= <-]. by eexists. Qed.

(** The rows of the score table, when every call of the scorer succeeds:
    row [i] holds [b i j] at position [j]. *)
Lemma bedroc_rows (alphas : list float) (rs : list Results) (b : nat → nat → float) :
  (∀ i j r a, rs !! i = Some r → alphas !! j = Some a →
     bedroc_score (y_true r) (y_pred r) true a = Ok (b i j)) →
  comprehension
    (λ o, comprehension (λ alpha, '(yt, yp) ← star o; bedroc_score yt yp true alpha) alphas)
    (PyResults <$> rs)
  = Ok ((λ i, b i <$> seq 0 (length alphas)) <$> seq 0 (length rs)).
Proof.
  intros Hb.
  rewrite (comprehension_indexed _ (λ i, b i <$> seq 0 (length alphas))).
  - by rewrite length_fmap.
  - intros i o Ho. rewrite list_lookup_fmap in Ho.
    destruct (rs !! i) as [r|] eqn:Hr; [|done]. injection Ho as <-.
    apply comprehension_indexed. intros j a Ha. cbn. by apply Hb.
Qed.

(** X22.  Take an evaluation of [F] folds and a list of [K]
    alphas, the scorer giving [b i j] for fold [i] and alpha [j]
    (called with decreasing ordering).  For [F ≥ 1],
    [compute_bedroc_scores] returns an array of shape [(F, K)] whose
    entry at [(i, j)] is [b i j].  Without folds it returns the empty
    one-dimensional array, of shape [(0,)]. *)
Theorem compute_bedroc_scores_shape_and_entries
    (alphas : list float) (rs : list Evaluation.Results) (ev : Evaluation.Evaluation)
    (b : nat → nat → float) :
  Evaluation.__init__ (Evaluation.PyResults <$> rs) = Ok ev →
  (∀ i j r a, rs !! i = Some r → alphas !! j = Some a →
     bedroc_score (Evaluation.y_true r) (Evaluation.y_pred r) true a = Ok (b i j)) →
  ∃ scores,
    Evaluation.compute_bedroc_scores bedroc_score alphas ev = Ok scores
    ∧ (rs ≠ [] →
       shape scores = [length rs; length alphas]
       ∧ ∀ i j, (i < length rs)%nat → (j < length alphas)%nat →
           item2 scores i j = Some (b i j))
    ∧ (rs = [] → scores = mk_ndarray [0%nat] []).
Proof.
  intros Hev Hb. rewrite init_of_Results in Hev. injection Hev as <-.
  unfold compute_bedroc_scores. cbn [results].
  rewrite (bedroc_rows alphas rs b Hb). cbn [mbind result_bind].
  destruct rs as [|r0 rs'] eqn:Hrs; [by eexists|]. rewrite <- Hrs in *.
  assert (Hne : rs ≠ []) by (by rewrite Hrs). clear Hrs r0 rs'.
  set (rows := (λ i, b i <$> seq 0 (length alphas)) <$> seq 0 (length rs)).
  assert (Hrows : Forall (λ r, length r = length alphas) rows).
  { apply Forall_fmap, Forall_forall. intros i _. cbn.
    by rewrite length_fmap, length_seq. }
  assert (Hlen : length rows = length rs).
  { unfold rows. by rewrite length_fmap, length_seq. }
  rewrite (np_array2_uniform rows (length alphas)); [|by destruct rs|done].
  eexists. split; [done|]. split; [|done]. intros _.
  cbn [shape]. split; [by rewrite Hlen|].
  intros i j Hi Hj. unfold item2. cbn [shape flat]. rewrite Hlen.
  rewrite bool_decide_eq_true_2 by done.
  rewrite (lookup_concat_uniform rows (length alphas) i j Hrows Hj).
  unfold rows. rewrite list_lookup_fmap, lookup_seq_lt by done. cbn.
  by rewrite list_lookup_fmap, lookup_seq_lt.
Qed.

End Scorers.
End EvaluationFacts.

(** ** Arrays and data frames *)

Lemma omap_seq_total {B} (f : nat → option B) (s n : nat) :
  (∀ i, (i < n)%nat → is_Some (f (s + i)%nat)) →
  length (omap f (seq s n)) = n
  ∧ ∀ i, (i < n)%nat → omap f (seq s n) !! i = f (s + i)%nat.
Proof.
  revert s. induction n as [|n IH]; intros s Hf.
  - split; [done|]. intros i Hi. lia.
  - cbn. destruct (Hf 0%nat ltac:(lia)) as [b Hb].
    rewrite Nat.add_0_r in Hb. rewrite Hb.
    destruct (IH (S s)) as [IHlen IHlook].
    { intros i Hi. replace (S s + i)%nat with (s + S i)%nat by lia. apply Hf. lia. }
    split; [cbn; by rewrite IHlen|].
    intros [|i] Hi; cbn.
    + by rewrite Nat.add_0_r.
    + rewrite IHlook by lia. f_equal. lia.
Qed.

Lemma length_flat_map_uniform {A B} (f : A → list B) (l : list A) (k : nat) :
  (∀ x, x ∈ l → length (f x) = k) → length (flat_map f l) = (length l * k)%nat.
Proof.
  induction l as [|x l IH]; intros Hf; [done|].
  cbn. rewrite length_app, Hf by left. rewrite IH; [lia|].
  intros y Hy. apply Hf. by right.
Qed.

Lemma length_block {A} (l : list A) (n i : nat) :
  ((i + 1) * n ≤ length l)%nat → length (block l n i) = n.
Proof. intros Hl. unfold block. rewrite length_take, length_drop. lia. Qed.

Lemma cell_in_range (n m i j : nat) : (i < n)%nat → (j < m)%nat → (i * m + j < n * m)%nat.
Proof. intros Hi Hj. nia. Qed.

(** A column cut out of a two-dimensional array has one cell per row. *)
Lemma array_column {A} (l : list A) (n m j : nat) :
  length l = (n * m)%nat → (j < m)%nat →
  length (omap (λ i, l !! (i * m + j)%nat) (seq 0 n)) = n
  ∧ ∀ i, (i < n)%nat → omap (λ i, l !! (i * m + j)%nat) (seq 0 n) !! i = l !! (i * m + j)%nat.
Proof.
  intros Hl Hj.
  destruct (omap_seq_total (λ i, l !! (i * m + j)%nat) 0 n) as [Hlen Hlook].
  { intros i Hi. apply lookup_lt_is_Some. rewrite Hl. cbn. by apply cell_in_range. }
  split; [done|]. intros i Hi. by rewrite Hlook.
Qed.

Lemma pd_DataFrame_2d {A} (data : ndarray A) (cols : list string) (idx : list label) (n m : nat) :
  shape data = [n; m] → length (flat data) = (n * m)%nat →
  n = length idx → m = length cols →
  ∃ df, pd_DataFrame data cols idx = Ok df
    ∧ index df = idx
    ∧ column_names df = cols
    ∧ DataFrame_wf df
    ∧ ∀ i j, (i < n)%nat → (j < m)%nat → iat df i j = flat data !! (i * m + j)%nat.
Proof.
  intros Hsh Hwf Hn Hm. unfold pd_DataFrame. rewrite Hsh.
  rewrite bool_decide_eq_true_2 by done.
  eexists. split; [done|]. cbn [index columns]. split_and!.
  - done.
  - unfold column_names. cbn [columns]. rewrite fmap_imap.
    clear. generalize (λ j : nat, omap (λ i, flat data !! (i * m + j)%nat) (seq 0 n)).
    intros g. revert g. induction cols as [|c cols IH]; intros g; [done|].
    cbn. f_equal. apply (IH (λ j, g (S j))).
  - unfold DataFrame_wf, len. cbn [index columns].
    apply Forall_lookup. intros j c Hc.
    rewrite list_lookup_imap in Hc.
    destruct (cols !! j) as [nm|] eqn:Hnm; [|done]. injection Hc as <-. cbn.
    apply lookup_lt_Some in Hnm.
    destruct (array_column (flat data) n m j) as [Hlen _]; [done|lia|]. lia.
  - intros i j Hi Hj. unfold iat. cbn [columns].
    rewrite list_lookup_imap.
    destruct (lookup_lt_is_Some_2 cols j ltac:(lia)) as [nm Hnm]. rewrite Hnm. cbn.
    destruct (array_column (flat data) n m j) as [_ Hlook]; [done..|].
    by apply Hlook.
Qed.

Lemma DataFrame_map_index {A B} (f : A → B) (df : DataFrame A) :
  index (DataFrame_map f df) = index df.
Proof. done. Qed.

Lemma DataFrame_map_column_names {A B} (f : A → B) (df : DataFrame A) :
  column_names (DataFrame_map f df) = column_names df.
Proof.
  unfold column_names, DataFrame_map. cbn [columns].
  rewrite <- list_fmap_compose. by apply list_fmap_ext.
Qed.

Lemma DataFrame_map_wf {A B} (f : A → B) (df : DataFrame A) :
  DataFrame_wf df → DataFrame_wf (DataFrame_map f df).
Proof.
  unfold DataFrame_wf, DataFrame_map, len. cbn [index columns]. intros Hwf.
  apply Forall_fmap. eapply Forall_impl; [exact Hwf|].
  intros c Hc. cbn. by rewrite length_fmap.
Qed.

Lemma DataFrame_map_iat {A B} (f : A → B) (df : DataFrame A) (i j : nat) :
  iat (DataFrame_map f df) i j = f <$> iat df i j.
Proof.
  unfold iat, DataFrame_map. cbn [columns]. rewrite list_lookup_fmap.
  destruct (columns df !! j) as [c|]; cbn; [|done]. by rewrite list_lookup_fmap.
Qed.

Lemma column_names_length {A} (df : DataFrame A) : length (column_names df) = ncols df.
Proof. unfold column_names, ncols. by rewrite length_fmap. Qed.

(** ** Tables *)

Section TableFacts.
Import Dataframes.
Variable sqrt : Qc → Qc.
Variable format_2e : float → string.


Lemma reduce_axis1_shape {A B} (f : list A → B) (a : ndarray A) (s0 s1 : nat) (rest : list nat) :
  shape a = s0 :: s1 :: rest →
  ∃ r, reduce_axis1 f a = Ok r
    ∧ shape r = s0 :: rest
    ∧ length (flat r) = (s0 * size_of rest)%nat.
Proof.
  intros Hsh. unfold reduce_axis1. rewrite Hsh.
  eexists. split; [done|]. split; [done|]. cbn [flat].
  rewrite (length_flat_map_uniform _ _ (size_of rest)).
  - by rewrite length_seq.
  - intros i _. by rewrite length_map, length_seq.
Qed.

Lemma np_hstack_2d {A} (a b : ndarray A) (n m1 m2 : nat) :
  shape a = [n; m1] → shape b = [n; m2] →
  length (flat a) = (n * m1)%nat → length (flat b) = (n * m2)%nat →
  ∃ r, np_hstack a b = Ok r
    ∧ shape r = [n; (m1 + m2)%nat]
    ∧ length (flat r) = (n * (m1 + m2))%nat.
Proof.
  intros Ha Hb Hla Hlb. unfold np_hstack, atleast_1d. rewrite Ha, Hb. cbn zeta. rewrite Ha, Hb.
  rewrite bool_decide_eq_true_2 by done.
  eexists. split; [done|]. split; [done|]. cbn [flat size_of foldr].
  rewrite (length_flat_map_uniform _ _ (m1 + m2)).
  - by rewrite length_seq.
  - intros i Hi. apply elem_of_seq in Hi.
    rewrite length_app, !length_block; [lia|nia..].
Qed.

Lemma reshape_rows_exact {A} (a : ndarray A) (r c : nat) :
  (0 < c)%nat → length (flat a) = (r * c)%nat →
  reshape_rows a c = Ok (mk_ndarray [r; c] (flat a)).
Proof.
  intros Hc Hl. unfold reshape_rows. rewrite Hl.
  rewrite bool_decide_eq_false_2.
  - by rewrite Nat.div_mul by lia.
  - rewrite Nat.Div0.mod_mul. lia.
Qed.

Lemma bedroc_column_names_length (avg std : string) (labels : list string) :
  length (flat_map (bedroc_column_pair avg std) labels) = (length labels * 2)%nat.
Proof. apply length_flat_map_uniform. done. Qed.

(** C4.  For a three-dimensional array [bedroc] of shape [(A, D, M)]
    with positive [A], [D] and [M], [M] model names and an [alpha_map]
    of [A] entries, [generate_bedroc_table] returns a data frame with
    [M] rows labelled by the model names and [2 * A] columns, named,
    for each alpha label in the order of [alpha_map], by the averaged
    column followed by the std column. *)
Theorem generate_bedroc_table_rows_and_columns
    (bedroc : ndarray float) (model_names : list string)
    (alpha_map : list (float * string))
    (avg_bedroc_score_name std_bedroc_score_name : string) (a d m : nat) :
  shape bedroc = [a; d; m] → (0 < a)%nat → (0 < d)%nat → (0 < m)%nat →
  length model_names = m → length alpha_map = a →
  ∃ df,
    Dataframes.generate_bedroc_table sqrt format_2e bedroc model_names alpha_map
      avg_bedroc_score_name std_bedroc_score_name = Ok df
    ∧ index df = LabelStr <$> model_names
    ∧ len df = m
    ∧ ncols df = (2 * a)%nat
    ∧ column_names df
      = flat_map (λ alpha, [avg_bedroc_score_name +:+ " (top " +:+ alpha +:+ ")";
                            std_bedroc_score_name +:+ " (top " +:+ alpha +:+ ")"])
                 (alpha_map.*2)
    ∧ DataFrame_wf df.
Proof.
  intros Hsh Ha _ _ Hm Hmap. unfold generate_bedroc_table. rewrite Hsh.
  rewrite bool_decide_eq_false_2 by (intros ?; done).
  destruct (reduce_axis1_shape np_mean bedroc a d [m] Hsh) as (avg & -> & Havg & Hlavg).
  destruct (reduce_axis1_shape (np_std sqrt) bedroc a d [m] Hsh) as (std & -> & Hstd & Hlstd).
  cbn in Hlavg, Hlstd. rewrite Nat.mul_1_r in Hlavg, Hlstd. cbn [mbind result_bind].
  destruct (np_hstack_2d avg std a m m Havg Hstd Hlavg Hlstd) as (st & -> & Hst & Hlst).
  cbn [mbind result_bind]. rewrite (reshape_rows_exact st m (length alpha_map * 2)) by lia.
  cbn [mbind result_bind].
  set (names := flat_map _ _).
  edestruct (pd_DataFrame_2d (mk_ndarray [m; (length alpha_map * 2)%nat] (flat st))
               names (LabelStr <$> model_names) m (length alpha_map * 2))
    as (df & Hdf & Hidx & Hcols & Hdfwf & _); [done|cbn; lia|by rewrite length_fmap| |].
  { unfold names. by rewrite bedroc_column_names_length, length_fmap. }
  rewrite Hdf. cbn. eexists. split; [done|]. split_and!.
  - by rewrite DataFrame_map_index.
  - unfold len. by rewrite DataFrame_map_index, Hidx, length_fmap.
  - rewrite <- column_names_length, DataFrame_map_column_names, Hcols.
    unfold names. rewrite bedroc_column_names_length, length_fmap. lia.
  - by rewrite DataFrame_map_column_names, Hcols.
  - by apply DataFrame_map_wf.
Qed.

End TableFacts.

(** ** Side information: from a data frame to a matrix *)

Section LoaderFacts.
Import SideInformationLoader.

Lemma row_cells_wf {A} (df : DataFrame A) (i : nat) :
  DataFrame_wf df → (i < len df)%nat →
  length (row_cells df i) = ncols df
  ∧ ∀ j, (j < ncols df)%nat → row_cells df i !! j = column_values df j !! i.
Proof.
  intros Hwf Hi. unfold row_cells, ncols, column_values.
  induction Hwf as [|c cols Hc _ IH]; [split; [done|intros; cbn in *; lia]|].
  cbn. destruct (lookup_lt_is_Some_2 c.2 i ltac:(lia)) as [x Hx]. rewrite Hx.
  destruct IH as [IHlen IHlook]. split; [cbn; by rewrite IHlen|].
  intros [|j] Hj; cbn; [done|]. apply IHlook. cbn in Hj. lia.
Qed.

Lemma column_values_length {A} (df : DataFrame A) (j : nat) :
  DataFrame_wf df → (j < ncols df)%nat → length (column_values df j) = len df.
Proof.
  intros Hwf Hj. unfold column_values.
  destruct (lookup_lt_is_Some_2 (columns df) j Hj) as [c Hc]. rewrite Hc. cbn.
  by apply (Forall_lookup_1 _ _ _ _ Hwf Hc).
Qed.

Lemma to_numpy_lookup {A} (df : DataFrame A) (i j : nat) :
  DataFrame_wf df → (i < len df)%nat → (j < ncols df)%nat →
  flat (to_numpy df) !! (i * ncols df + j)%nat = column_values df j !! i.
Proof.
  intros Hwf Hi Hj. unfold to_numpy. cbn [flat].
  rewrite flat_map_concat_map.
  rewrite (lookup_concat_uniform _ (ncols df) i j).
  - change (map ?f ?l) with (f <$> l).
    rewrite list_lookup_fmap, lookup_seq_lt by done. cbn.
    by apply row_cells_wf.
  - change (map ?f ?l) with (f <$> l). apply Forall_fmap, Forall_forall.
    intros k Hk. apply elem_of_seq in Hk. cbn. apply row_cells_wf; [done|lia].
  - done.
Qed.

(** [mat[:, j]] of [mat = df.to_numpy()] is column [j] of the frame. *)
Lemma column_slice_to_numpy {A} (df : DataFrame A) (j : nat) :
  DataFrame_wf df → (j < ncols df)%nat →
  column_slice (to_numpy df) j = Ok (column_values df j).
Proof.
  intros Hwf Hj. unfold column_slice. cbn [shape to_numpy].
  rewrite bool_decide_eq_true_2 by done. f_equal.
  destruct (omap_seq_total (λ i, flat (to_numpy df) !! (i * ncols df + j)%nat) 0 (len df))
    as [Hlen Hlook].
  { intros i Hi. change (is_Some (flat (to_numpy df) !! (i * ncols df + j)%nat)).
    rewrite to_numpy_lookup by done.
    apply lookup_lt_is_Some. by rewrite column_values_length. }
  apply list_eq_same_length with (len df); [by rewrite column_values_length|exact Hlen|].
  intros i x y Hi Hx Hy. rewrite Hlook in Hx by done.
  change (flat (to_numpy df) !! (i * ncols df + j)%nat = Some x) in Hx.
  rewrite to_numpy_lookup in Hx by done. congruence.
Qed.

Lemma column_slice_out_of_bounds {A} (df : DataFrame A) (j : nat) :
  (ncols df ≤ j)%nat → is_IndexError (column_slice (to_numpy df) j).
Proof.
  intros Hj. unfold column_slice. cbn [shape to_numpy].
  rewrite bool_decide_eq_false_2 by lia. by eexists.
Qed.

(** *** The integer part is monotone *)

Lemma py_int_mono (a b : Qc) : (a ≤ b)%Qc → py_int a ≤ py_int b.
Proof.
  unfold Qcle, Qle, py_int. destruct a as [[an ad] ?], b as [[bn bd] ?]. cbn.
  intros Hab.
  rewrite <- (Z.quot_mul_cancel_r an (Z.pos ad) (Z.pos bd)) by lia.
  rewrite <- (Z.quot_mul_cancel_r bn (Z.pos bd) (Z.pos ad)) by lia.
  rewrite (Z.mul_comm (Z.pos bd) (Z.pos ad)).
  apply Z.quot_le_mono; lia.
Qed.

Lemma py_int_Qc_max (a b : Qc) : py_int (Qc_max a b) = Z.max (py_int a) (py_int b).
Proof.
  unfold Qc_max. case_bool_decide as Hab.
  - apply Qclt_le_weak, py_int_mono in Hab. lia.
  - apply Qcnot_lt_le, py_int_mono in Hab. lia.
Qed.

Lemma py_int_foldl_max (x : Qc) (l : list Qc) :
  py_int (foldl Qc_max x l) = foldl Z.max (py_int x) (py_int <$> l).
Proof.
  revert x. induction l as [|y l IH]; intros x; [done|].
  cbn. by rewrite IH, py_int_Qc_max.
Qed.

Lemma foldr_max_base (x y : Z) (l : list Z) :
  foldr Z.max (Z.max x y) l = Z.max y (foldr Z.max x l).
Proof. induction l as [|z l IH]; cbn; [lia|]. rewrite IH. lia. Qed.

Lemma foldl_max_maximum (x : Z) (l : list Z) :
  foldl Z.max x l = maximum (x :: l).
Proof.
  unfold maximum. cbn. revert x. induction l as [|y l IH]; intros x; cbn; [lia|].
  rewrite IH, foldr_max_base. lia.
Qed.



Lemma np_max_nonempty (l : list Qc) :
  l ≠ [] → ∃ mx, np_max l = Ok mx ∧ py_int mx = maximum (py_int <$> l).
Proof.
  destruct l as [|x l]; [done|]. intros _. eexists. split; [done|].
  cbn [np_max].
  by rewrite py_int_foldl_max, fmap_cons, foldl_max_maximum.
Qed.


(** *** The constructor of coordinate matrices *)


(** Whatever the constructor returns has the shape it was asked for and
    holds the data it was given. *)
Lemma sp_coo_matrix_returned (data row col : list Qc) (sh : Z * Z) (m : coo_matrix) :
  sp_coo_matrix data row col sh = Ok m →
  m = mk_coo_matrix sh (py_int <$> row) (py_int <$> col) data.
Proof.
  unfold sp_coo_matrix. repeat case_bool_decide; try done. by intros [= <-].
Qed.



(** *** [to_coo] *)

(** [to_coo] on a frame of at least three columns: the greatest cell of
    the second column, then the constructor. *)
Lemma to_coo_unfold (df : DataFrame Qc) (rows : Z) :
  DataFrame_wf df → (3 ≤ ncols df)%nat →
  to_coo df rows
  = (mx ← np_max (column_values df 1);
     sp_coo_matrix (column_values df 2) (column_values df 0) (column_values df 1)
       (rows + 1, py_int mx + 1)).
Proof.
  intros Hwf Hn. unfold to_coo.
  rewrite !column_slice_to_numpy by (done || lia). done.
Qed.

Lemma to_coo_too_few_columns (df : DataFrame Qc) (rows : Z) :
  (ncols df < 3)%nat → is_IndexError (to_coo df rows).
Proof.
  intros Hn. unfold to_coo.
  destruct (column_slice_out_of_bounds df 2 ltac:(lia)) as [msg ->]. by exists msg.
Qed.






(** Whenever [to_coo] returns, the matrix has this shape. *)
Lemma to_coo_shape_when_returned (df : DataFrame Qc) (rows : Z) (m : coo_matrix) :
  DataFrame_wf df → (3 ≤ ncols df)%nat →
  to_coo df rows = Ok m → coo_shape m = (rows + 1, max_column_index df + 1).
Proof.
  intros Hwf Hn. rewrite to_coo_unfold by done.
  destruct (column_values df 1) as [|c cs] eqn:Hc; [done|].
  destruct (np_max_nonempty (c :: cs)) as (mx & Hmx & Hint); [done|].
  rewrite Hmx. cbn [mbind result_bind]. intros Hm.
  apply sp_coo_matrix_returned in Hm. subst m. cbn.
  unfold max_column_index. by rewrite Hc, Hint.
Qed.



(** *** [add_implicit_ones] *)

Lemma setitem_fresh (df : DataFrame Qc) (name : string) :
  name ∉ column_names df →
  setitem df name (np_ones (len df)) = Ok (with_ones name df).
Proof.
  intros Hname. unfold setitem, np_ones.
  rewrite bool_decide_eq_true_2 by apply length_replicate.
  by rewrite bool_decide_eq_false_2.
Qed.

Lemma add_implicit_ones_fresh (h : store) (l : loc) (df : DataFrame Qc) (name : string) :
  h !! l = Some df → name ∉ column_names df →
  add_implicit_ones l name h = (Ok l, <[l := with_ones name df]> h).
Proof.
  intros Hl Hname. unfold add_implicit_ones, bind, deref, lift, assign, ret.
  rewrite Hl. by rewrite setitem_fresh.
Qed.

Lemma setitem_present (df : DataFrame Qc) (name : string) :
  name ∈ column_names df →
  setitem df name (np_ones (len df))
  = Ok (mk_DataFrame (index df)
          ((λ c : string * list Qc,
              if bool_decide (c.1 = name) then (c.1, replicate (len df) 1%Qc) else c)
             <$> columns df)).
Proof.
  intros Hname. unfold setitem, np_ones.
  rewrite bool_decide_eq_true_2 by apply length_replicate.
  by rewrite bool_decide_eq_true_2.
Qed.

(** X23.  [add_implicit_ones] changes the data frame it is
    given in place and returns the reference it was given; every other
    object of the store is untouched.  When no column of the frame
    bears the new name, the frame afterwards has the original columns,
    unchanged, followed by one new column whose value is 1 in every
    row.  When a column bears that name already, none is appended: the
    cells of that column are overwritten with ones. *)
Theorem add_implicit_ones_appends_in_place
    (h : SideInformationLoader.store) (l : SideInformationLoader.loc)
    (df : DataFrame Qc) (name : string) :
  h !! l = Some df →
  ∃ df',
    SideInformationLoader.add_implicit_ones l name h = (Ok l, <[l := df']> h)
    ∧ index df' = index df
    ∧ (name ∉ column_names df →
       columns df' = columns df ++ [(name, replicate (len df) 1%Qc)])
    ∧ (name ∈ column_names df →
       columns df'
       = (λ c : string * list Qc,
            if bool_decide (c.1 = name) then (c.1, replicate (len df) 1%Qc) else c)
           <$> columns df).
Proof.
  intros Hl. destruct (decide (name ∈ column_names df)) as [Hname|Hname].
  - exists (mk_DataFrame (index df)
              ((λ c : string * list Qc,
                  if bool_decide (c.1 = name) then (c.1, replicate (len df) 1%Qc) else c)
                 <$> columns df)).
    split_and!; [|done..].
    unfold add_implicit_ones, bind, deref, lift, assign, ret.
    rewrite Hl. by rewrite setitem_present.
  - exists (with_ones name df).
    rewrite (add_implicit_ones_fresh h l df name Hl Hname). done.
Qed.

(** *** Frames with a column of ones *)

Lemma with_ones_len name df : len (with_ones name df) = len df.
Proof. done. Qed.

Lemma with_ones_ncols name df : ncols (with_ones name df) = S (ncols df).
Proof. unfold ncols, with_ones. cbn. rewrite length_app. cbn. lia. Qed.






(** *** One turn of the loop of [__call__] *)






(** *** The loop of [__call__] *)












(** *** [__call__] *)

Section CallFacts.
Variable hstack_nothing : exn.







(** On an empty list nothing is converted and the stacking of nothing
    raises. *)
Lemma call_on_no_frames (h : store) (rows : Z) :
  __call__ hstack_nothing [] rows h = (Raise hstack_nothing, h).
Proof. reflexivity. Qed.

End CallFacts.

End LoaderFacts.

(** * The model at work

    Instances of the theorems above, and the inputs on which the claims
    fail as they were first stated. *)

Section Instances.
Import Reference Examples Evaluation Dataframes SideInformationLoader.

(** C1 at two folds with the scores 1/2 and 1: the average loss is the
    mean of 1/2 and 0. *)
Lemma compute_avg_auc_loss_two_folds :
  ∃ std,
    compute_avg_auc_loss pairwise_auc heron_sqrt
      (mk_Evaluation [PyResults fold_a; PyResults fold_b])
    = Ok (Fin (mean_over_folds (λ s, 1 - s)%Qc [qc 1 2; qc 1 1]), std).
Proof.
  apply (compute_avg_auc_loss_is_mean_over_folds pairwise_auc heron_sqrt
           [fold_a; fold_b] [qc 1 2; qc 1 1]).
  - done.
  - reflexivity.
  - repeat constructor; compute_done.
Defined.

Example average_loss_is_one_quarter :
  mean_over_folds (λ s, 1 - s)%Qc [qc 1 2; qc 1 1] = qc 1 4.
Proof. by apply Qc_is_canon. Qed.

(** X22 at two folds and two alphas. *)
Lemma compute_bedroc_scores_two_by_two :
  ∃ scores,
    compute_bedroc_scores share_scorer [fl 20 1; fl 5 1]
      (mk_Evaluation [PyResults fold_a; PyResults fold_b]) = Ok scores
    ∧ ([fold_a; fold_b] ≠ [] →
       shape scores = [2%nat; 2%nat]
       ∧ ∀ i j, (i < 2)%nat → (j < 2)%nat → item2 scores i j = Some (share_table i j))
    ∧ ([fold_a; fold_b] = [] → scores = mk_ndarray [0%nat] []).
Proof.
  apply (compute_bedroc_scores_shape_and_entries share_scorer [fl 20 1; fl 5 1]
           [fold_a; fold_b] _ share_table).
  - reflexivity.
  - intros [|[|i]] [|[|j]] r a Hr Ha; cbn in Hr, Ha; try done;
      injection Hr as <-; injection Ha as <-; compute_done.
Defined.

Example bedroc_scores_of_the_share_scorer :
  (flat <$> compute_bedroc_scores share_scorer [fl 20 1; fl 5 1]
              (mk_Evaluation [PyResults fold_a; PyResults fold_b]))
  = (Ok [fl 20 3; fl 5 3; fl 10 1; fl 5 2] : result (list float)).
Proof. compute_done. Qed.

(** C6.  Without folds [compute_bedroc_scores] does not return what
    its docstring promises, an array of shape (folds, alphas): with one
    alpha the array has shape [(0,)], not [(0, 1)]. *)
Lemma compute_bedroc_scores_without_folds :
  ∃ ev scores,
    __init__ [] = Ok ev
    ∧ compute_bedroc_scores share_scorer [fl 20 1] ev = Ok scores
    ∧ shape scores = [0%nat]
    ∧ shape scores ≠ [length (results ev); length [fl 20 1]].
Proof. by eexists _, _. Qed.

(** [__init__] at a list with an integer in it. *)
Example init_refuses_an_int :
  __init__ [PyResults fold_a; PyOther "int"]
  = Raise (TypeError "Invalid type at index 1: Expected `Results`, but got <class 'int'>. Ensure all elements in the `results` list are instances of the `Results` class.").
Proof. reflexivity. Qed.


Example auc_loss_table_printed :
  generate_auc_loss_table python_format_2e two_losses ["MF"; "MF + side info"]
    default_avg_auc_loss_name default_std_auc_loss_name
  = Ok (mk_DataFrame [LabelStr "MF"; LabelStr "MF + side info"]
          [("Averaged 1-AUC error", ["2.50e-01"; "1.23e-01"]);
           ("Std 1-AUC error", ["1.25e-01"; "0.00e+00"])]).
Proof. reflexivity. Qed.

(** C4 at two alphas, two diseases and three models. *)
Lemma generate_bedroc_table_three_models :
  ∃ df,
    generate_bedroc_table heron_sqrt python_format_2e score_cube ["A"; "B"; "C"] two_alphas
      default_avg_bedroc_score_name default_std_bedroc_score_name = Ok df
    ∧ index df = LabelStr <$> ["A"; "B"; "C"]
    ∧ len df = 3%nat
    ∧ ncols df = (2 * 2)%nat
    ∧ column_names df
      = flat_map (λ alpha, [default_avg_bedroc_score_name +:+ " (top " +:+ alpha +:+ ")";
                            default_std_bedroc_score_name +:+ " (top " +:+ alpha +:+ ")"])
                 (two_alphas.*2)
    ∧ DataFrame_wf df.
Proof.
  apply (generate_bedroc_table_rows_and_columns heron_sqrt python_format_2e score_cube
           ["A"; "B"; "C"] two_alphas _ _ 2 2 3); (reflexivity || lia).
Defined.

Example bedroc_table_column_names :
  flat_map (λ alpha, [default_avg_bedroc_score_name +:+ " (top " +:+ alpha +:+ ")";
                      default_std_bedroc_score_name +:+ " (top " +:+ alpha +:+ ")"])
           (two_alphas.*2)
  = ["Averaged BEDROC score (top 100)"; "Std BEDROC score (top 100)";
     "Averaged BEDROC score (top 1%)"; "Std BEDROC score (top 1%)"].
Proof. reflexivity. Qed.

End Instances.

Section LoaderInstances.
Import Reference Examples SideInformationLoader.



Example to_coo_scored_frame_value :
  to_coo scored_frame 2
  = Ok (mk_coo_matrix (3, 4) [0; 2] [1; 3] [qc 1 2; qc 7 1]).
Proof. reflexivity. Qed.



Example max_column_index_scored_frame : max_column_index scored_frame = 3.
Proof. reflexivity. Qed.


(** X23 at a store of two frames: the frame at reference 1 gets its
    column, the frame at reference 0 stays. *)
Lemma add_implicit_ones_unscored_frame :
  ∃ df',
    add_implicit_ones 1 default_implicit_1s_name {[0%nat := scored_frame; 1%nat := unscored_frame]}
    = (Ok 1%nat, <[1%nat := df']> {[0%nat := scored_frame; 1%nat := unscored_frame]})
    ∧ index df' = index unscored_frame
    ∧ (default_implicit_1s_name ∉ column_names unscored_frame →
       columns df'
       = columns unscored_frame
           ++ [(default_implicit_1s_name, replicate (len unscored_frame) 1%Qc)])
    ∧ (default_implicit_1s_name ∈ column_names unscored_frame →
       columns df'
       = (λ c : string * list Qc,
            if bool_decide (c.1 = default_implicit_1s_name)
            then (c.1, replicate (len unscored_frame) 1%Qc) else c)
           <$> columns unscored_frame).
Proof.
  apply (add_implicit_ones_appends_in_place
           {[0%nat := scored_frame; 1%nat := unscored_frame]} 1 unscored_frame
           default_implicit_1s_name). reflexivity.
Defined.

Example add_implicit_ones_unscored_frame_value :
  (add_implicit_ones 1 default_implicit_1s_name
     {[0%nat := scored_frame; 1%nat := unscored_frame]}).2
  = {[0%nat := scored_frame;
      1%nat := mk_DataFrame [LabelInt 0; LabelInt 1]
                 [("gene", [qc 0 1; qc 2 1]); ("term", [qc 1 1; qc 1 1]);
                  ("implicit 1s", [qc 1 1; qc 1 1])]]}.
Proof. reflexivity. Qed.

(** C10.  At a frame that already has a column called "implicit 1s"
    [add_implicit_ones] does not add the column of ones its docstring
    promises: no column is appended, and the cells of that original
    column are overwritten. *)
Lemma add_implicit_ones_overwrites_a_column :
  ∃ h',
    add_implicit_ones 0 default_implicit_1s_name {[0%nat := clashing_frame]} = (Ok 0%nat, h')
    ∧ columns clashing_frame = [("gene", [qc 3 1]); ("implicit 1s", [qc 7 1])]
    ∧ columns <$> h' !! 0%nat = Some [("gene", [qc 3 1]); ("implicit 1s", [qc 1 1])].
Proof. eexists. split_and!; reflexivity. Qed.


Example call_on_three_references_shape :
  sp_shape <$> (__call__ (IndexError "index 0 is out of bounds for axis 1 with size 0")
                  [0; 1; 1]%nat 2 {[0%nat := scored_frame; 1%nat := unscored_frame]}).1
  = Ok (3, 8).
Proof. reflexivity. Qed.


(** A frame of one column is refused with the message of the column
    count. *)
Example call_on_one_column :
  (__call__ (IndexError "index 0 is out of bounds for axis 1 with size 0")
     [0; 1]%nat 2 {[0%nat := scored_frame; 1%nat := one_column_frame]}).1
  = Raise (ValueError column_count_message).
Proof. reflexivity. Qed.

(** A frame of two columns whose second column is called "implicit 1s"
    still has two columns after [add_implicit_ones]: [to_coo] finds no
    third column. *)
Example call_on_clashing_frame :
  (__call__ (ValueError "need at least one array to concatenate")
     [0%nat] 2 {[0%nat := clashing_frame]}).1
  = Raise (IndexError "index 2 is out of bounds for axis 1 with size 2").
Proof. reflexivity. Qed.

End LoaderInstances.

(** * Further properties *)

(** ** Evaluation: the first failure, the loss in terms of the scores,
       the averaged curve *)

Lemma comprehension_first_failure {A B} (f : A → result B) (pre post : list A) (a : A) (e : exn) :
  Forall (λ x, returns (f x)) pre → f a = Raise e →
  comprehension f (pre ++ a :: post) = Raise e.
Proof.
  intros Hpre Ha. induction Hpre as [|x pre [b Hb] _ IH]; cbn.
  - by rewrite Ha.
  - rewrite Hb. cbn. by rewrite IH.
Qed.

Lemma comprehension_returns {A B} (f : A → result B) (l : list A) :
  Forall (λ x, returns (f x)) l → returns (comprehension f l).
Proof.
  induction 1 as [|x l [b Hb] _ [bs IH]]; [by eexists|].
  cbn. rewrite Hb. cbn. rewrite IH. by eexists.
Qed.

Lemma check_results_first_offender (i : nat) (pre post : list Evaluation.pyobj)
    (o : Evaluation.pyobj) :
  Forall (λ o', Evaluation.isinstance_Results o' = true) pre →
  Evaluation.isinstance_Results o = false →
  ∃ msg, Evaluation.check_results i (pre ++ o :: post) = Raise (TypeError msg)
    ∧ msg = "Invalid type at index " +:+ pretty (i + length pre)%nat
              +:+ ": Expected `Results`, but got " +:+ Evaluation.type_repr o
              +:+ ". Ensure all elements in the `results` list are instances of the `Results` class.".
Proof.
  intros Hpre Ho. revert i. induction Hpre as [|o' pre Ho' _ IH]; intros i; cbn.
  - rewrite Ho, Nat.add_0_r. by eexists.
  - rewrite Ho'. destruct (IH (S i)) as (msg & -> & ->).
    eexists. split; [done|]. by replace (S i + length pre)%nat with (i + S (length pre))%nat by lia.
Qed.

Section EvaluationMore.
Import Evaluation.
Variable bedroc_score : list Z → list float → bool → float → result float.
Variable roc_auc_score : list Z → list float → result float.
Variable roc_curve : list Z → list float → result (list float * list float * list float).
Variable sqrt : Qc → Qc.

(** X1.  The [TypeError] of [Evaluation.__init__] is raised for the
    first element that is not a [Results]: its message gives the index
    and the type of that element, whatever follows it in the list. *)
Theorem init_reports_first_offender (pre post : list Evaluation.pyobj) (o : Evaluation.pyobj) :
  Forall (λ o', Evaluation.isinstance_Results o' = true) pre →
  Evaluation.isinstance_Results o = false →
  Evaluation.__init__ (pre ++ o :: post)
  = Raise (TypeError
      ("Invalid type at index " +:+ pretty (length pre)
       +:+ ": Expected `Results`, but got " +:+ Evaluation.type_repr o
       +:+ ". Ensure all elements in the `results` list are instances of the `Results` class.")).
Proof.
  intros Hpre Ho. unfold __init__.
  destruct (check_results_first_offender 0 pre post o Hpre Ho) as (msg & -> & ->). done.
Qed.

(** X2.  When the ROC-AUC scorer raises on a fold and has scored all
    the folds before it, [compute_avg_auc_loss] raises that very
    exception: nothing is averaged over the folds that went well. *)
Theorem compute_avg_auc_loss_first_failure
    (pre post : list Evaluation.Results) (r : Evaluation.Results) (e : exn)
    (ev : Evaluation.Evaluation) :
  Evaluation.__init__ (Evaluation.PyResults <$> pre ++ r :: post) = Ok ev →
  Forall (λ r', returns (roc_auc_score (Evaluation.y_true r') (Evaluation.y_pred r'))) pre →
  roc_auc_score (Evaluation.y_true r) (Evaluation.y_pred r) = Raise e →
  Evaluation.compute_avg_auc_loss roc_auc_score sqrt ev = Raise e.
Proof.
  intros Hev Hpre Hr. rewrite init_of_Results in Hev. injection Hev as <-.
  unfold compute_avg_auc_loss. cbn [results]. rewrite fmap_app, fmap_cons.
  rewrite (comprehension_first_failure _ _ _ _ e); [done| |cbn; by rewrite Hr].
  apply Forall_fmap. eapply Forall_impl; [exact Hpre|].
  intros r' [s Hs]. cbn. rewrite Hs. by eexists.
Qed.

(** X3.  [compute_bedroc_scores] scores fold after fold and, within a
    fold, alpha after alpha: the first call of the scorer that raises
    ends the computation with its exception. *)
Theorem compute_bedroc_scores_first_failure
    (pre post : list Evaluation.Results) (r : Evaluation.Results)
    (alphas_before alphas_after : list float) (alpha : float) (e : exn)
    (ev : Evaluation.Evaluation) :
  Evaluation.__init__ (Evaluation.PyResults <$> pre ++ r :: post) = Ok ev →
  Forall (λ r', Forall (λ a, returns (bedroc_score (Evaluation.y_true r') (Evaluation.y_pred r') true a))
                  (alphas_before ++ alpha :: alphas_after)) pre →
  Forall (λ a, returns (bedroc_score (Evaluation.y_true r) (Evaluation.y_pred r) true a))
    alphas_before →
  bedroc_score (Evaluation.y_true r) (Evaluation.y_pred r) true alpha = Raise e →
  Evaluation.compute_bedroc_scores bedroc_score (alphas_before ++ alpha :: alphas_after) ev
  = Raise e.
Proof.
  intros Hev Hpre Hbefore Halpha. rewrite init_of_Results in Hev. injection Hev as <-.
  unfold compute_bedroc_scores. cbn [results]. rewrite fmap_app, fmap_cons.
  rewrite (comprehension_first_failure _ _ _ _ e); [done| |].
  - apply Forall_fmap. eapply Forall_impl; [exact Hpre|].
    intros r' Hr'. cbn. apply comprehension_returns.
    eapply Forall_impl; [exact Hr'|]. by intros a Ha.
  - apply comprehension_first_failure; [|done].
    eapply Forall_impl; [exact Hbefore|]. by intros a Ha.
Qed.

End EvaluationMore.

(** *** Sums and means of rationals *)

Lemma Qc_of_nat_S (n : nat) :
  Q2Qc (inject_Z (Z.of_nat (S n))) = (1 + Q2Qc (inject_Z (Z.of_nat n)))%Qc.
Proof.
  apply Qc_is_canon. cbn -[Z.of_nat inject_Z]. rewrite !Qred_correct.
  rewrite Nat2Z.inj_succ, <- Z.add_1_l, inject_Z_plus. reflexivity.
Qed.

Lemma Qc_of_nat_nonneg (n : nat) : (0 ≤ Q2Qc (inject_Z (Z.of_nat n)))%Qc.
Proof.
  unfold Qcle. cbn -[Z.of_nat inject_Z Qred].
  rewrite (Qred_correct (inject_Z (Z.of_nat n))), (Qred_correct 0).
  unfold Qle. cbn. lia.
Qed.

Lemma Qc_of_nat_pos (n : nat) : n ≠ 0%nat → (0 < Q2Qc (inject_Z (Z.of_nat n)))%Qc.
Proof.
  intros Hn. unfold Qclt. cbn -[Z.of_nat inject_Z Qred].
  rewrite (Qred_correct (inject_Z (Z.of_nat n))), (Qred_correct 0).
  unfold Qlt. cbn. lia.
Qed.

(** The sum of one minus each score. *)
Lemma sum_of_complements (ss : list Qc) :
  (foldr Qcplus 0 ((λ s, 1 - s) <$> ss)
   = Q2Qc (inject_Z (Z.of_nat (length ss))) - foldr Qcplus 0 ss)%Qc.
Proof.
  induction ss as [|s ss IH]; [by apply Qc_is_canon|].
  rewrite fmap_cons. cbn [foldr length]. rewrite IH, Qc_of_nat_S. ring.
Qed.

Lemma sum_between (a b : Qc) (ss : list Qc) :
  Forall (λ s, a ≤ s ∧ s ≤ b)%Qc ss →
  (a * Q2Qc (inject_Z (Z.of_nat (length ss))) ≤ foldr Qcplus 0 ss
   ∧ foldr Qcplus 0 ss ≤ b * Q2Qc (inject_Z (Z.of_nat (length ss))))%Qc.
Proof.
  induction 1 as [|s ss [Has Hsb] _ [IHa IHb]].
  - cbn. replace (Q2Qc (inject_Z 0)) with 0%Qc by (by apply Qc_is_canon).
    rewrite !Qcmult_0_r. split; apply Qcle_refl.
  - cbn [foldr length]. rewrite Qc_of_nat_S.
    replace (a * (1 + Q2Qc (inject_Z (Z.of_nat (length ss)))))%Qc
      with (a + a * Q2Qc (inject_Z (Z.of_nat (length ss))))%Qc by ring.
    replace (b * (1 + Q2Qc (inject_Z (Z.of_nat (length ss)))))%Qc
      with (b + b * Q2Qc (inject_Z (Z.of_nat (length ss))))%Qc by ring.
    split; by apply Qcplus_le_compat.
Qed.

(** A mean lies between the bounds of what is averaged. *)
Lemma mean_between (a b : Qc) (ss : list Qc) :
  ss ≠ [] → Forall (λ s, a ≤ s ∧ s ≤ b)%Qc ss →
  (a ≤ foldr Qcplus 0 ss / Q2Qc (inject_Z (Z.of_nat (length ss)))
   ∧ foldr Qcplus 0 ss / Q2Qc (inject_Z (Z.of_nat (length ss))) ≤ b)%Qc.
Proof.
  intros Hne Hss. destruct (sum_between a b ss Hss) as [Ha Hb].
  set (n := Q2Qc (inject_Z (Z.of_nat (length ss)))) in *.
  assert (Hn : (0 < n)%Qc) by (apply Qc_of_nat_pos; by destruct ss).
  assert (Hn' : n ≠ 0%Qc) by (intros Hz; rewrite Hz in Hn; by apply Qclt_not_eq in Hn).
  assert (Hinv : (0 ≤ / n)%Qc) by (by apply Qclt_le_weak, Qcinv_pos).
  assert (Haa : ((a * n) * / n = a)%Qc) by (field; done).
  assert (Hbb : ((b * n) * / n = b)%Qc) by (field; done).
  unfold Qcdiv. split.
  - apply Qcle_trans with ((a * n) * / n)%Qc; [rewrite Haa; apply Qcle_refl|].
    by apply Qcmult_le_compat_r.
  - apply Qcle_trans with ((b * n) * / n)%Qc; [|rewrite Hbb; apply Qcle_refl].
    by apply Qcmult_le_compat_r.
Qed.

Lemma square_of_abs (x : Qc) :
  ((if bool_decide (x < 0) then - x else x) * (if bool_decide (x < 0) then - x else x)
   = x * x)%Qc.
Proof. case_bool_decide; ring. Qed.

(** The standard deviation of finitely many finite floats: the root of
    the mean of the squared distances to the mean. *)
Lemma np_std_Fin (sqrt : Qc → Qc) (l : list Qc) :
  l ≠ [] →
  np_std sqrt (Fin <$> l)
  = fsqrt sqrt
      (Fin (foldr Qcplus 0
              ((λ q, (q - foldr Qcplus 0 l / Q2Qc (inject_Z (Z.of_nat (length l))))
                     * (q - foldr Qcplus 0 l / Q2Qc (inject_Z (Z.of_nat (length l))))) <$> l)
            / Q2Qc (inject_Z (Z.of_nat (length l))))%Qc).
Proof.
  intros Hl. unfold np_std. rewrite np_mean_Fin by done. cbn zeta.
  change (map ?f ?l) with (f <$> l). rewrite <- list_fmap_compose.
  set (mu := (foldr Qcplus 0 l / Q2Qc (inject_Z (Z.of_nat (length l))))%Qc).
  rewrite (list_fmap_ext _ (Fin ∘ (λ q, (q - mu) * (q - mu))%Qc) l).
  - rewrite list_fmap_compose, np_mean_Fin by (by destruct l).
    by rewrite length_fmap.
  - intros i q _. cbn. by rewrite square_of_abs.
Qed.

Section LossFacts.
Import Evaluation.
Variable roc_auc_score : list Z → list float → result float.
Variable sqrt : Qc → Qc.

(** X4.  For a non-empty list of folds, each with a ROC-AUC score, the
    pair [compute_avg_auc_loss] returns is one minus the mean of the
    scores, and the standard deviation of the scores themselves. *)
Theorem compute_avg_auc_loss_in_terms_of_scores
    (rs : list Evaluation.Results) (ss : list Qc) (ev : Evaluation.Evaluation) :
  rs ≠ [] →
  Evaluation.__init__ (Evaluation.PyResults <$> rs) = Ok ev →
  Forall2 (λ r s, roc_auc_score (Evaluation.y_true r) (Evaluation.y_pred r) = Ok (Fin s)) rs ss →
  Evaluation.compute_avg_auc_loss roc_auc_score sqrt ev
  = Ok (Fin (1 - Evaluation.mean_over_folds (λ s, s) ss)%Qc, np_std sqrt (Fin <$> ss)).
Proof.
  intros Hne Hev Hs. rewrite init_of_Results in Hev. injection Hev as <-.
  assert (Hss : ss ≠ []).
  { apply Forall2_length in Hs. destruct ss; [|done]. by destruct rs. }
  assert (Hn : Q2Qc (inject_Z (Z.of_nat (length ss))) ≠ 0%Qc).
  { apply float_of_nat_nonzero. by destruct ss. }
  unfold compute_avg_auc_loss. cbn [results].
  rewrite (auc_losses roc_auc_score rs ss Hs). cbn [mbind result_bind].
  assert (Hmean :
    (foldr Qcplus 0 ((λ s, 1 - s) <$> ss) / Q2Qc (inject_Z (Z.of_nat (length ss)))
     = 1 - foldr Qcplus 0 ss / Q2Qc (inject_Z (Z.of_nat (length ss))))%Qc).
  { rewrite sum_of_complements. by field. }
  assert (Havg : np_mean (Fin <$> ((λ s, 1 - s)%Qc <$> ss))
                 = Fin (1 - mean_over_folds (λ s, s) ss)%Qc).
  { rewrite np_mean_Fin by (by destruct ss). rewrite length_fmap, Hmean.
    unfold mean_over_folds.
    replace (foldr (λ s acc, s + acc)%Qc 0%Qc ss) with (foldr Qcplus 0%Qc ss); [done|].
    clear. induction ss as [|s ss IH]; [done|]. cbn. by rewrite IH. }
  assert (Hstd : np_std sqrt (Fin <$> ((λ s, 1 - s)%Qc <$> ss)) = np_std sqrt (Fin <$> ss)).
  { rewrite !np_std_Fin by (by destruct ss). rewrite !length_fmap, Hmean.
    rewrite <- list_fmap_compose.
    rewrite (list_fmap_ext
               ((λ q, (q - (1 - foldr Qcplus 0 ss / Q2Qc (inject_Z (Z.of_nat (length ss)))))
                      * (q - (1 - foldr Qcplus 0 ss / Q2Qc (inject_Z (Z.of_nat (length ss))))))%Qc
                  ∘ (λ s, 1 - s)%Qc)
               (λ q, (q - foldr Qcplus 0 ss / Q2Qc (inject_Z (Z.of_nat (length ss))))
                     * (q - foldr Qcplus 0 ss / Q2Qc (inject_Z (Z.of_nat (length ss)))))%Qc ss);
      [done|].
    intros i s _. cbn. ring. }
  by rewrite Havg, Hstd.
Qed.

(** X5.  When every fold has a ROC-AUC score between 0 and 1, the
    average loss [compute_avg_auc_loss] returns lies between 0 and 1. *)
Theorem compute_avg_auc_loss_between_0_and_1
    (rs : list Evaluation.Results) (ss : list Qc) (ev : Evaluation.Evaluation) :
  rs ≠ [] →
  Evaluation.__init__ (Evaluation.PyResults <$> rs) = Ok ev →
  Forall2 (λ r s, roc_auc_score (Evaluation.y_true r) (Evaluation.y_pred r) = Ok (Fin s)) rs ss →
  Forall (λ s, 0 ≤ s ∧ s ≤ 1)%Qc ss →
  ∃ avg std,
    Evaluation.compute_avg_auc_loss roc_auc_score sqrt ev = Ok (Fin avg, std)
    ∧ (0 ≤ avg)%Qc ∧ (avg ≤ 1)%Qc.
Proof.
  intros Hne Hev Hs Hbounds. rewrite init_of_Results in Hev. injection Hev as <-.
  assert (Hss : ss ≠ []).
  { apply Forall2_length in Hs. destruct ss; [|done]. by destruct rs. }
  unfold compute_avg_auc_loss. cbn [results].
  rewrite (auc_losses roc_auc_score rs ss Hs). cbn [mbind result_bind].
  rewrite np_mean_Fin by (by destruct ss).
  eexists _, _. split; [done|].
  apply mean_between; [by destruct ss|].
  apply Forall_fmap. eapply Forall_impl; [exact Hbounds|].
  intros s [H0 H1]. cbn. split.
  - apply Qcle_minus_iff in H1. by replace (1 - s)%Qc with (1 + - s)%Qc by ring.
  - apply Qcle_minus_iff. replace (1 + - (1 - s))%Qc with s by ring. done.
Qed.

End LossFacts.

(** *** The averaged ROC curve *)

Lemma comprehension_total {A B} (g : A → B) (l : list A) :
  comprehension (λ x, Ok (g x)) l = Ok (g <$> l).
Proof. induction l as [|a l IH]; [done|]. cbn. by rewrite IH. Qed.

Lemma omap_shift {B} (f : nat → option B) (ns : list nat) :
  omap f (S <$> ns) = omap (f ∘ S) ns.
Proof. induction ns as [|n ns IH]; [done|]. cbn. by rewrite IH. Qed.

Lemma omap_lookup_seq {A B} (g : A → option B) (l : list A) :
  omap (λ i, l !! i ≫= g) (seq 0 (length l)) = omap g l.
Proof.
  induction l as [|a l IH]; [done|].
  cbn [length seq]. rewrite <- fmap_S_seq.
  change (omap (λ i, (a :: l) !! i ≫= g) (0%nat :: (S <$> seq 0 (length l))))
    with (match g a with
          | Some b => b :: omap (λ i, (a :: l) !! i ≫= g) (S <$> seq 0 (length l))
          | None => omap (λ i, (a :: l) !! i ≫= g) (S <$> seq 0 (length l))
          end).
  rewrite omap_shift.
  change (omap ((λ i, (a :: l) !! i ≫= g) ∘ S) (seq 0 (length l)))
    with (omap (λ i, l !! i ≫= g) (seq 0 (length l))).
  by rewrite IH.
Qed.

Lemma omap_fmap_compose {A B C} (f : A → B) (g : B → option C) (l : list A) :
  omap g (f <$> l) = omap (g ∘ f) l.
Proof. induction l as [|a l IH]; [done|]. cbn. by rewrite IH. Qed.

Lemma omap_ext_in {A B} (f g : A → option B) (l : list A) :
  (∀ x, x ∈ l → f x = g x) → omap f l = omap g l.
Proof.
  induction l as [|a l IH]; intros Hfg; [done|].
  cbn. rewrite (Hfg a) by left. rewrite IH; [done|]. intros x Hx. apply Hfg. by right.
Qed.

Lemma foldl_min_le_init {A} (f : A → nat) (n : nat) (l : list A) :
  (foldl (λ m x, Nat.min m (f x)) n l ≤ n)%nat.
Proof. revert n. induction l as [|x l IH]; intros n; cbn; [lia|]. specialize (IH (Nat.min n (f x))). lia. Qed.

Lemma foldl_min_le_elem {A} (f : A → nat) (n : nat) (l : list A) (x : A) :
  x ∈ l → (foldl (λ m x, Nat.min m (f x)) n l ≤ f x)%nat.
Proof.
  intros Hx. revert n. induction Hx as [x l|x y l _ IH]; intros n; cbn.
  - pose proof (foldl_min_le_init f (Nat.min n (f x)) l). lia.
  - apply IH.
Qed.

Lemma shortest_curve_le (curves : list (list float * list float * list float)) c :
  c ∈ curves → (shortest_curve curves ≤ length c.2)%nat.
Proof.
  destruct curves as [|c0 cs]; [by intros ?%not_elem_of_nil|].
  intros [->|Hc]%elem_of_cons; cbn.
  - apply foldl_min_le_init.
  - by apply (foldl_min_le_elem (λ c : list float * list float * list float, length c.2)).
Qed.

(** The mean along the first axis of rows cut to one length. *)
Lemma np_mean_axis0_cut (rows : list (list float)) (n : nat) :
  rows ≠ [] → Forall (λ row, n ≤ length row)%nat rows →
  np_mean_axis0 (take n <$> rows) = Ok (mk_ndarray [n] (pointwise_mean rows n)).
Proof.
  intros Hne Hlen. unfold np_mean_axis0.
  assert (Hcut : Forall (λ r, length r = n) (take n <$> rows)).
  { apply Forall_fmap. eapply Forall_impl; [exact Hlen|].
    intros row Hrow. cbn in Hrow |- *. rewrite length_take. lia. }
  rewrite (np_array2_uniform _ n); [|by destruct rows|done].
  cbn [mbind result_bind shape flat]. do 2 f_equal.
  unfold pointwise_mean. apply list_fmap_ext. intros j k Hk.
  apply lookup_seq in Hk as [-> Hj]. cbn [Nat.add]. f_equal.
  rewrite length_fmap.
  rewrite (omap_ext_in _ (λ i, (take n <$> rows) !! i ≫= (.!! j))).
  - rewrite <- (length_fmap (take n) rows), omap_lookup_seq, omap_fmap_compose.
    apply omap_ext_in. intros row _. cbn. by rewrite lookup_take_lt.
  - intros i _. by apply lookup_concat_uniform.
Qed.

Section CurveFacts.
Import Evaluation.
Variable roc_curve : list Z → list float → result (list float * list float * list float).

Lemma roc_loop_run (rs : list Results) (curves : list (list float * list float * list float))
    (fpr tpr : list (list float)) (nb_th : option nat) :
  Forall2 (λ r c, roc_curve (y_true r) (y_pred r) = Ok c) rs curves →
  roc_loop roc_curve (PyResults <$> rs) fpr tpr nb_th
  = Ok (fpr ++ curves.*1.*1, tpr ++ curves.*1.*2,
        foldl (λ o c, Some (min_nb_th o (length c.2))) nb_th curves).
Proof.
  intros Hc. revert fpr tpr nb_th.
  induction Hc as [|r [[f t] th] rs curves Hr _ IH]; intros fpr tpr nb_th.
  - cbn. by rewrite !app_nil_r.
  - cbn. rewrite Hr. cbn. rewrite IH, <- !app_assoc. done.
Qed.

Lemma slices_to (n : nat) (rows : list (list float)) :
  comprehension (slice_to (Some n)) rows = Ok (take n <$> rows).
Proof. apply (comprehension_total (take n)). Qed.

Lemma nb_th_of_curves (n : nat) (cs : list (list float * list float * list float)) :
  foldl (λ o c, Some (min_nb_th o (length c.2))) (Some n) cs
  = Some (foldl (λ m c', Nat.min m (length c'.2)) n cs).
Proof. revert n. induction cs as [|c cs IH]; intros n; [done|]. cbn. by rewrite IH. Qed.

(** X6.  [compute_roc_curve] averages the curves of the folds position
    by position, after cutting each to the number of thresholds of the
    fold that has fewest (sklearn returns the rates and the thresholds
    of a fold as three arrays of one length).  Without folds both
    results are the scalar [nan]. *)
Theorem compute_roc_curve_pointwise_mean
    (rs : list Evaluation.Results) (curves : list (list float * list float * list float))
    (ev : Evaluation.Evaluation) :
  Evaluation.__init__ (Evaluation.PyResults <$> rs) = Ok ev →
  Forall2 (λ r c, roc_curve (Evaluation.y_true r) (Evaluation.y_pred r) = Ok c) rs curves →
  Forall (λ c, length c.1.1 = length c.2 ∧ length c.1.2 = length c.2) curves →
  ∃ fpr tpr,
    Evaluation.compute_roc_curve roc_curve ev = Ok (fpr, tpr)
    ∧ (rs ≠ [] →
       fpr = mk_ndarray [shortest_curve curves]
               (pointwise_mean (curves.*1.*1) (shortest_curve curves))
       ∧ tpr = mk_ndarray [shortest_curve curves]
                 (pointwise_mean (curves.*1.*2) (shortest_curve curves)))
    ∧ (rs = [] → fpr = mk_ndarray [] [NaN] ∧ tpr = mk_ndarray [] [NaN]).
Proof.
  intros Hev Hc Hlen. rewrite init_of_Results in Hev. injection Hev as <-.
  unfold compute_roc_curve. cbn [results].
  rewrite (roc_loop_run rs curves [] [] None Hc). cbn [mbind result_bind app].
  destruct Hc as [|r c rs curves Hr Hc]; [by eexists _, _|].
  cbn [foldl min_nb_th]. rewrite nb_th_of_curves.
  change (foldl _ (length c.2) curves) with (shortest_curve (c :: curves)).
  set (n := shortest_curve (c :: curves)).
  rewrite !slices_to. cbn [mbind result_bind].
  rewrite !np_mean_axis0_cut.
  - cbn [mbind result_bind]. eexists _, _. split; [done|]. split; [done|]. by intros ?.
  - done.
  - apply Forall_fmap, Forall_fmap, Forall_forall. intros c' Hc'. cbn.
    pose proof (shortest_curve_le (c :: curves) c' Hc') as H.
    apply (proj1 (Forall_forall _ _) Hlen) in Hc' as [Hf Ht].
    unfold n. first [rewrite Hf | rewrite Ht]; exact H.
  - done.
  - apply Forall_fmap, Forall_fmap, Forall_forall. intros c' Hc'. cbn.
    pose proof (shortest_curve_le (c :: curves) c' Hc') as H.
    apply (proj1 (Forall_forall _ _) Hlen) in Hc' as [Hf Ht].
    unfold n. first [rewrite Hf | rewrite Ht]; exact H.
Qed.

End CurveFacts.

(** ** Tables: when they are refused, and what their cells hold *)

Lemma lookup_flat_map_uniform {A B} (f : A → list B) (l : list A) (k i j : nat) :
  (∀ x, x ∈ l → length (f x) = k) → (j < k)%nat →
  flat_map f l !! (i * k + j)%nat = l !! i ≫= λ x, f x !! j.
Proof.
  intros Hk Hj. rewrite flat_map_concat_map.
  change (map f l) with (f <$> l).
  rewrite (lookup_concat_uniform _ k i j); [|by apply Forall_fmap, Forall_forall|done].
  rewrite list_lookup_fmap. by destruct (l !! i).
Qed.

Lemma lookup_block {A} (l : list A) (n i j : nat) :
  (j < n)%nat → block l n i !! j = l !! (i * n + j)%nat.
Proof. intros Hj. unfold block. by rewrite lookup_take_lt, lookup_drop. Qed.

Section TableMore.
Import Dataframes.
Variable sqrt : Qc → Qc.
Variable format_2e : float → string.

(** X7.  [generate_auc_loss_table] returns a table exactly for an array
    of shape [(len(model_names), 2)]; for an array of any other shape
    the data frame constructor raises [ValueError]. *)
Theorem generate_auc_loss_table_refuses_other_shapes
    (auc_loss : ndarray float) (model_names : list string)
    (avg_auc_loss_name std_auc_loss_name : string) :
  (shape auc_loss = [length model_names; 2%nat] →
   returns (Dataframes.generate_auc_loss_table format_2e auc_loss model_names
              avg_auc_loss_name std_auc_loss_name))
  ∧ (shape auc_loss ≠ [length model_names; 2%nat] →
     is_ValueError (Dataframes.generate_auc_loss_table format_2e auc_loss model_names
                      avg_auc_loss_name std_auc_loss_name)).
Proof.
  unfold generate_auc_loss_table, pd_DataFrame. split.
  - intros ->. rewrite bool_decide_eq_true_2 by (by rewrite length_fmap). by eexists.
  - intros Hsh. destruct (shape auc_loss) as [|n [|m [|? ?]]]; try by eexists.
    + rewrite bool_decide_eq_false_2; [by eexists|]. cbn. lia.
    + rewrite bool_decide_eq_false_2; [by eexists|].
      rewrite length_fmap. cbn. intros [-> ->]. done.
Qed.

Lemma stacked_means_and_stds (bedroc : ndarray float) (a d m : nat) :
  shape bedroc = [a; d; m] →
  ∃ avg std stacked,
    reduce_axis1 np_mean bedroc = Ok avg
    ∧ reduce_axis1 (np_std sqrt) bedroc = Ok std
    ∧ np_hstack avg std = Ok stacked
    ∧ length (flat stacked) = (a * (m + m))%nat
    ∧ ∀ alpha c, (alpha < a)%nat → (c < m + m)%nat →
        flat stacked !! (alpha * (m + m) + c)%nat
        = Some (if bool_decide (c < m)%nat
                then np_mean (along_diseases bedroc d m alpha c)
                else np_std sqrt (along_diseases bedroc d m alpha (c - m))).
Proof.
  intros Hsh.
  destruct (reduce_axis1_shape np_mean bedroc a d [m] Hsh) as (avg & Havg & Hsavg & Hlavg).
  destruct (reduce_axis1_shape (np_std sqrt) bedroc a d [m] Hsh) as (std & Hstd & Hsstd & Hlstd).
  cbn in Hlavg, Hlstd. rewrite Nat.mul_1_r in Hlavg, Hlstd.
  destruct (np_hstack_2d avg std a m m Hsavg Hsstd Hlavg Hlstd) as (st & Hst & Hsst & Hlst).
  exists avg, std, st. split_and!; [done..|].
  intros alpha c Halpha Hc.
  assert (Hreduced : ∀ (f : list float → float) (r : ndarray float) (k : nat),
            reduce_axis1 f bedroc = Ok r → (k < m)%nat →
            flat r !! (alpha * m + k)%nat = Some (f (along_diseases bedroc d m alpha k))).
  { intros f r k Hr Hk. unfold reduce_axis1 in Hr. rewrite Hsh in Hr.
    injection Hr as <-. cbn [flat size_of foldr].
    replace (alpha * m + k)%nat with (alpha * (m * 1) + k)%nat by lia.
    rewrite (lookup_flat_map_uniform _ _ (m * 1)); [| |lia].
    - rewrite lookup_seq_lt by done. cbn [mbind option_bind Nat.add].
      change (map ?g ?l) with (g <$> l).
      rewrite list_lookup_fmap, lookup_seq_lt by lia. done.
    - intros i _. by rewrite length_map, length_seq. }
  revert Hst. unfold np_hstack, atleast_1d. rewrite Hsavg, Hsstd. cbn zeta.
  rewrite Hsavg, Hsstd. rewrite bool_decide_eq_true_2 by done.
  intros [= <-]. cbn [flat size_of foldr].
  replace (m * 1)%nat with m by lia.
  rewrite (lookup_flat_map_uniform _ _ (m + m)); [| |done].
  - rewrite lookup_seq_lt by done. cbn [mbind option_bind Nat.add].
    case_bool_decide as Hcm.
    + rewrite lookup_app_l by (rewrite length_block; nia).
      rewrite lookup_block by done. by apply Hreduced.
    + rewrite lookup_app_r by (rewrite length_block; nia).
      rewrite length_block by nia.
      rewrite lookup_block by lia. apply Hreduced; [done|lia].
  - intros i Hi%elem_of_seq. rewrite length_app, !length_block; nia.
Qed.

(** X8.  For a three-dimensional array of shape [(A, D, M)],
    [generate_bedroc_table] returns a table exactly when [alpha_map]
    has [A] entries, [A] is positive and there are [M] model names.
    Otherwise it raises [ValueError]: its own for another number of
    alphas, numpy's for [A = 0], pandas's for another number of names. *)
Theorem generate_bedroc_table_refusals
    (bedroc : ndarray float) (model_names : list string)
    (alpha_map : list (float * string))
    (avg_bedroc_score_name std_bedroc_score_name : string) (a d m : nat) :
  shape bedroc = [a; d; m] →
  (length alpha_map ≠ a →
   Dataframes.generate_bedroc_table sqrt format_2e bedroc model_names alpha_map
     avg_bedroc_score_name std_bedroc_score_name = Raise (ValueError ""))
  ∧ (length alpha_map = a → (a = 0%nat ∨ length model_names ≠ m) →
     is_ValueError (Dataframes.generate_bedroc_table sqrt format_2e bedroc model_names alpha_map
                      avg_bedroc_score_name std_bedroc_score_name))
  ∧ (length alpha_map = a → (0 < a)%nat → length model_names = m →
     returns (Dataframes.generate_bedroc_table sqrt format_2e bedroc model_names alpha_map
                avg_bedroc_score_name std_bedroc_score_name)).
Proof.
  intros Hsh. unfold generate_bedroc_table. rewrite Hsh. split_and!.
  - intros Hmap. by rewrite bool_decide_eq_true_2.
  - intros Hmap Hbad. rewrite bool_decide_eq_false_2 by (intros ?; done).
    destruct (stacked_means_and_stds bedroc a d m Hsh)
      as (avg & std & st & -> & -> & Hst & Hlst & _).
    cbn [mbind result_bind]. rewrite Hst. cbn [mbind result_bind].
    destruct (decide (a = 0%nat)) as [Ha|Ha].
    + unfold reshape_rows. rewrite bool_decide_eq_true_2; [by eexists|]. left. lia.
    + destruct Hbad as [?|Hnames]; [done|].
      rewrite (reshape_rows_exact st m (length alpha_map * 2)) by lia.
      cbn [mbind result_bind]. unfold pd_DataFrame. cbn [shape].
      rewrite bool_decide_eq_false_2; [by eexists|].
      rewrite length_fmap. intros [? _]. done.
  - intros Hmap Ha Hnames. rewrite bool_decide_eq_false_2 by (intros ?; done).
    destruct (stacked_means_and_stds bedroc a d m Hsh)
      as (avg & std & st & -> & -> & Hst & Hlst & _).
    cbn [mbind result_bind]. rewrite Hst. cbn [mbind result_bind].
    rewrite (reshape_rows_exact st m (length alpha_map * 2)) by lia.
    cbn [mbind result_bind]. unfold pd_DataFrame. cbn [shape].
    rewrite bool_decide_eq_true_2; [by eexists|].
    by rewrite length_fmap, bedroc_column_names_length, length_fmap.
Qed.

(** X9.  The cells of the table [generate_bedroc_table] returns: the
    means and standard deviations over the diseases are laid out per
    alpha as the [M] means followed by the [M] standard deviations,
    and the table reads this sequence off row by row, [2 * A] values
    to a row.  The cell at row [i] and column [j] is the printed form
    of element number [i * 2A + j] of it. *)
Theorem generate_bedroc_table_cells
    (bedroc : ndarray float) (model_names : list string)
    (alpha_map : list (float * string))
    (avg_bedroc_score_name std_bedroc_score_name : string) (a d m : nat) :
  shape bedroc = [a; d; m] → (0 < a)%nat →
  length model_names = m → length alpha_map = a →
  ∃ df,
    Dataframes.generate_bedroc_table sqrt format_2e bedroc model_names alpha_map
      avg_bedroc_score_name std_bedroc_score_name = Ok df
    ∧ ∀ i j, (i < m)%nat → (j < a * 2)%nat →
        iat df i j = Some (format_2e (bedroc_cell sqrt bedroc a d m i j)).
Proof.
  intros Hsh Ha Hnames Hmap. unfold generate_bedroc_table. rewrite Hsh.
  rewrite bool_decide_eq_false_2 by (intros ?; done).
  destruct (stacked_means_and_stds bedroc a d m Hsh)
    as (avg & std & st & -> & -> & Hst & Hlst & Hcells).
  cbn [mbind result_bind]. rewrite Hst. cbn [mbind result_bind].
  rewrite (reshape_rows_exact st m (length alpha_map * 2)) by lia.
  cbn [mbind result_bind]. set (names := flat_map _ _).
  edestruct (pd_DataFrame_2d (mk_ndarray [m; (length alpha_map * 2)%nat] (flat st))
               names (LabelStr <$> model_names) m (length alpha_map * 2))
    as (df & Hdf & _ & _ & _ & Hiat); [done|cbn; lia|by rewrite length_fmap| |].
  { unfold names. by rewrite bedroc_column_names_length, length_fmap. }
  rewrite Hdf. cbn [mbind result_bind]. eexists. split; [done|].
  intros i j Hi Hj. rewrite DataFrame_map_iat, Hiat by lia. cbn [flat].
  rewrite Hmap. unfold bedroc_cell. cbn zeta.
  assert (Hm : (0 < m)%nat) by lia.
  set (q := (i * (a * 2) + j)%nat).
  assert (Hq : (q < a * (m + m))%nat) by (unfold q; nia).
  rewrite (Nat.div_mod_eq q (m + m)) at 1.
  rewrite (Nat.mul_comm (m + m)).
  rewrite Hcells; [done| |apply Nat.mod_upper_bound; lia].
  apply Nat.Div0.div_lt_upper_bound. lia.
Qed.

End TableMore.

(** ** The loader: refusals, and what a call leaves behind *)

Section LoaderMore.
Import SideInformationLoader.
Variable hstack_nothing : exn.


(** X11.  A second [add_implicit_ones] on the same frame under the
    same name changes nothing more: the store after the two calls is
    the store after the first, and both return the reference given. *)
Theorem add_implicit_ones_twice (h : SideInformationLoader.store)
    (l : SideInformationLoader.loc) (name : string) :
  SideInformationLoader.add_implicit_ones l name
    (SideInformationLoader.add_implicit_ones l name h).2
  = SideInformationLoader.add_implicit_ones l name h.
Proof.
  unfold add_implicit_ones, bind, deref, lift, assign, ret.
  destruct (h !! l) as [df|] eqn:Hl; cbn [snd]; [|by rewrite Hl].
  destruct (decide (name ∈ column_names df)) as [Hname|Hname].
  - rewrite setitem_present by done. cbn [snd]. rewrite lookup_insert_eq.
    set (df' := mk_DataFrame _ _).
    assert (Hlen : len df' = len df) by done.
    assert (Hnames : column_names df' = column_names df).
    { unfold column_names, df'. cbn [columns]. rewrite <- list_fmap_compose.
      apply list_fmap_ext. intros i c _. cbn. by case_bool_decide. }
    rewrite setitem_present by (by rewrite Hnames).
    rewrite Hlen, insert_insert_eq.
    assert (Hsame :
      (λ c : string * list Qc,
         if bool_decide (c.1 = name) then (c.1, replicate (len df) 1%Qc) else c)
        <$> columns df' = columns df').
    { unfold df'. cbn [columns]. rewrite <- list_fmap_compose.
      apply list_fmap_ext. intros i c _. cbn.
      destruct (decide (c.1 = name)) as [Hc|Hc].
      - rewrite (bool_decide_eq_true_2 (c.1 = name)) by done. cbn.
        by rewrite bool_decide_eq_true_2.
      - rewrite (bool_decide_eq_false_2 (c.1 = name)) by done.
        by rewrite bool_decide_eq_false_2. }
    rewrite Hsame. by destruct df'.
  - rewrite setitem_fresh by done. cbn [snd]. rewrite lookup_insert_eq.
    rewrite setitem_present.
    2:{ unfold column_names, with_ones. cbn [columns]. rewrite fmap_app.
        apply elem_of_app. right. cbn. by left. }
    rewrite insert_insert_eq, with_ones_len.
    assert (Hsame :
      (λ c : string * list Qc,
         if bool_decide (c.1 = name) then (c.1, replicate (len df) 1%Qc) else c)
        <$> columns (with_ones name df) = columns (with_ones name df)).
    { unfold with_ones. cbn [columns]. rewrite fmap_app. cbn [fmap list_fmap fst].
      rewrite bool_decide_eq_true_2 by done.
      rewrite <- (list_fmap_id (columns df)) at 2.
      apply (f_equal (λ x, x ++ [(name, replicate (len df) 1%Qc)])).
      apply list_fmap_ext. intros i c Hc. cbn.
      rewrite bool_decide_eq_false_2; [done|].
      intros Heq. apply Hname. unfold column_names.
      apply list_elem_of_fmap. exists c. split; [done|]. by eapply list_elem_of_lookup_2. }
    rewrite Hsame. done.
Qed.

(** One turn of the loop either leaves the store alone or gives the
    frame of two columns it met its column of ones; only a frame that
    then has three columns is converted. *)
Lemma convert_store (h h' : store) (l : loc) (rows : Z) (r : result spmatrix) :
  convert l rows h = (r, h') →
  h' = h
  ∨ ∃ df df', h !! l = Some df ∧ ncols df = 2%nat
      ∧ setitem df default_implicit_1s_name (np_ones (len df)) = Ok df'
      ∧ h' = <[l := df']> h
      ∧ (returns r → ncols df' = 3%nat).
Proof.
  unfold convert. unfold bind at 1. unfold deref at 1.
  destruct (h !! l) as [df|] eqn:Hl; [|intros [= <- <-]; by left].
  case_bool_decide as Hn.
  - intros Hrun. right. exists df. revert Hrun. unfold bind at 1.
    unfold add_implicit_ones, bind, deref, lift, assign, ret. rewrite Hl.
    destruct (decide (default_implicit_1s_name ∈ column_names df)) as [Hname|Hname].
    + rewrite setitem_present by done. rewrite lookup_insert_eq.
      match goal with
      | |- context [to_coo ?df' rows] =>
          destruct (to_coo_too_few_columns df' rows) as [msg ->]
      end.
      { unfold ncols in *. cbn. rewrite length_fmap. lia. }
      intros [= <- <-]. eexists. split_and!; [done..|]. by intros [? ?].
    + rewrite setitem_fresh by done. rewrite lookup_insert_eq.
      intros Hrun. exists (with_ones default_implicit_1s_name df).
      split_and!; [done..| |].
      * destruct (to_coo _ rows); by injection Hrun as <- <-.
      * intros _. rewrite with_ones_ncols. lia.
  - intros Hrun. left. revert Hrun. unfold bind, raise, ret, deref, lift.
    case_bool_decide; [by intros [= <- <-]|].
    rewrite Hl. destruct (to_coo df rows); by intros [= <- <-].
Qed.

Lemma call_loop_store (rows : Z) (dfs : list loc) :
  ∀ (h : store) (acc : list spmatrix) (l : loc),
    (call_loop dfs rows acc h).2 !! l = h !! l
    ∨ (l ∈ dfs ∧ ∃ df df', h !! l = Some df ∧ ncols df = 2%nat
         ∧ setitem df default_implicit_1s_name (np_ones (len df)) = Ok df'
         ∧ (call_loop dfs rows acc h).2 !! l = Some df').
Proof.
  induction dfs as [|l0 rest IH]; intros h acc l; [by left|].
  cbn [call_loop]. unfold bind.
  destruct (convert l0 rows h) as [[b|e] h1] eqn:Hconv;
    pose proof (convert_store _ _ _ _ _ Hconv) as Hturn.
  - destruct Hturn as [->|(df & df' & Hl0 & Hn & Hset & -> & Hthree)].
    + destruct (IH h (acc ++ [b]) l) as [Hsame|(Hin & Hrest)]; [by left|].
      right. split; [by right|done].
    + specialize (Hthree ltac:(by eexists)).
      destruct (decide (l0 = l)) as [<-|Hne].
      * destruct (IH (<[l0 := df']> h) (acc ++ [b]) l0)
          as [Hsame|(_ & df1 & df1' & Hl1 & Hn1 & _)].
        -- right. split; [by left|]. exists df, df'. split_and!; [done..|].
           by rewrite Hsame, lookup_insert_eq.
        -- rewrite lookup_insert_eq in Hl1. injection Hl1 as <-. lia.
      * destruct (IH (<[l0 := df']> h) (acc ++ [b]) l)
          as [Hsame|(Hin & df1 & df1' & Hl1 & Hrest)].
        -- left. by rewrite Hsame, lookup_insert_ne.
        -- right. split; [by right|]. exists df1, df1'.
           by rewrite lookup_insert_ne in Hl1.
  - cbn [snd]. destruct Hturn as [->|(df & df' & Hl0 & Hn & Hset & -> & _)]; [by left|].
    destruct (decide (l0 = l)) as [<-|Hne].
    + right. split; [by left|]. exists df, df'. by rewrite lookup_insert_eq.
    + left. by rewrite lookup_insert_ne.
Qed.

(** X12.  Whatever [__call__] is given and whether it returns or
    raises, the only objects it changes are frames of its list that
    had two columns: such a frame is left as the assignment of the
    column of ones leaves it.  Every other reference denotes after the
    call what it denoted before. *)
Theorem call_changes_only_frames_of_two_columns
    (h : SideInformationLoader.store) (dfs : list SideInformationLoader.loc)
    (rows : Z) (l : SideInformationLoader.loc) :
  (SideInformationLoader.__call__ hstack_nothing dfs rows h).2 !! l = h !! l
  ∨ (l ∈ dfs
     ∧ ∃ df df', h !! l = Some df ∧ ncols df = 2%nat
         ∧ setitem df SideInformationLoader.default_implicit_1s_name (np_ones (len df)) = Ok df'
         ∧ (SideInformationLoader.__call__ hstack_nothing dfs rows h).2 !! l = Some df').
Proof.
  assert (Hstore : (__call__ hstack_nothing dfs rows h).2 = (call_loop dfs rows [] h).2).
  { unfold __call__, bind, lift. by destruct (call_loop dfs rows [] h) as [[?|?] ?]. }
  rewrite Hstore. apply call_loop_store.
Qed.










End LoaderMore.

(** ** The loader: what the returned matrix stores *)

Section MatrixFacts.
Import SideInformationLoader.
Variable hstack_nothing : exn.








End MatrixFacts.

(** ** The loader as an object: [process_side_information] *)

Section ProcessFacts.
Import SideInformationLoader LoaderObject.
Variable hstack_nothing : exn.
Variable read_csv : string → result (DataFrame Qc).
Variable format_underscore : Z → string.
Variable to_markdown : DataFrame string → string.


Lemma log_table_misfit (shapes : list (Z * Z)) (name : string) (names' : list string) :
  length (name :: names') ≠ length shapes →
  is_ValueError (log_table format_underscore shapes (Some (name :: names'))).
Proof.
  intros Hlen. unfold log_table, set_index. rewrite bool_decide_eq_false_2; [by eexists|].
  rewrite length_fmap. unfold len. cbn [index DataFrame_map pd_DataFrame_pairs].
  by rewrite length_fmap, length_seq.
Qed.








(** X19.  When [names] is given, is not empty and does not have one
    name per file, gene and disease files counted together,
    [process_side_information] raises [ValueError] on setting the index
    of its table: nothing has been logged and no attribute set. *)
Theorem process_side_information_refuses_other_names
    (self : LoaderObject.Loader) (gene_side_info_paths disease_side_info_paths : list string)
    (name : string) (names' : list string) (gs ds : list (DataFrame Qc)) :
  Forall2 (λ path df, read_csv path = Ok df) gene_side_info_paths gs →
  Forall2 (λ path df, read_csv path = Ok df) disease_side_info_paths ds →
  length (name :: names') ≠ (length gene_side_info_paths + length disease_side_info_paths)%nat →
  ∃ msg,
    LoaderObject.process_side_information hstack_nothing read_csv format_underscore to_markdown
      self gene_side_info_paths disease_side_info_paths (Some (name :: names'))
    = (Raise (ValueError msg), self).
Proof.
  intros Hgenes Hdiseases Hlen.
  unfold process_side_information.
  rewrite (comprehension_Forall2 _ _ _ Hgenes), (comprehension_Forall2 _ _ _ Hdiseases).
  destruct (log_table_misfit
              ((λ dataframe : DataFrame Qc, (Z.of_nat (len dataframe), Z.of_nat (ncols dataframe)))
                 <$> gs ++ ds) name names') as [msg ->].
  { rewrite length_fmap, length_app.
    by rewrite <- (Forall2_length _ _ _ Hgenes), <- (Forall2_length _ _ _ Hdiseases). }
  by exists msg.
Qed.


(** X21.  The files are all read before anything else is done: when
    reading one of them raises, the gene files taken before the
    disease files, [process_side_information] raises that exception
    and the loader is as it was, with nothing logged. *)
Theorem process_side_information_unreadable_file
    (self : LoaderObject.Loader) (gene_side_info_paths disease_side_info_paths : list string)
    (names : option (list string)) (pre post : list string) (path : string) (e : exn) :
  gene_side_info_paths ++ disease_side_info_paths = pre ++ path :: post →
  Forall (λ p, returns (read_csv p)) pre →
  read_csv path = Raise e →
  LoaderObject.process_side_information hstack_nothing read_csv format_underscore to_markdown
    self gene_side_info_paths disease_side_info_paths names
  = (Raise e, self).
Proof.
  intros Hpaths Hpre Hpath. unfold process_side_information.
  apply app_eq_inv in Hpaths as [(k & Hgenes & Hk)|(k & Hpre' & Hdiseases)].
  - destruct k as [|p k].
    + cbn in Hk. rewrite app_nil_r in Hgenes. subst.
      destruct (comprehension_returns read_csv pre Hpre) as [gs ->].
      pose proof (comprehension_first_failure read_csv [] post path e (Forall_nil_2 _) Hpath)
        as Hfail.
      cbn [app] in Hfail. by rewrite Hfail.
    + injection Hk as <- _. subst.
      by rewrite (comprehension_first_failure read_csv pre k path e Hpre Hpath).
  - subst. apply Forall_app in Hpre as [Hgenes Hk].
    destruct (comprehension_returns read_csv _ Hgenes) as [gs ->].
    by rewrite (comprehension_first_failure read_csv k post path e Hk Hpath).
Qed.

End ProcessFacts.

(** * The further properties at work *)

Section MoreInstances.
Import Reference Examples Evaluation Dataframes.

(** X1 at a list whose second element is an integer. *)
Lemma init_reports_the_integer :
  Evaluation.__init__ ([PyResults fold_a] ++ PyOther "int" :: [PyResults fold_b])
  = Raise (TypeError
      ("Invalid type at index " +:+ pretty (length [PyResults fold_a])
       +:+ ": Expected `Results`, but got " +:+ type_repr (PyOther "int")
       +:+ ". Ensure all elements in the `results` list are instances of the `Results` class.")).
Proof.
  apply (init_reports_first_offender [PyResults fold_a] [PyResults fold_b] (PyOther "int")).
  - by repeat constructor.
  - reflexivity.
Defined.

(** X2 at three folds, the second with positive samples only. *)
Lemma compute_avg_auc_loss_one_class_fold :
  compute_avg_auc_loss pairwise_auc heron_sqrt
    (mk_Evaluation (PyResults <$> [fold_a] ++ one_class_fold :: [fold_b]))
  = Raise (ValueError
             "Only one class present in y_true. ROC AUC score is not defined in that case.").
Proof.
  apply (compute_avg_auc_loss_first_failure pairwise_auc heron_sqrt
           [fold_a] [fold_b] one_class_fold).
  - reflexivity.
  - repeat constructor. by eexists.
  - reflexivity.
Defined.

(** X3 at two folds, the second without samples. *)
Lemma compute_bedroc_scores_fold_without_samples :
  compute_bedroc_scores share_scorer ([] ++ fl 20 1 :: [fl 5 1])
    (mk_Evaluation (PyResults <$> [fold_a] ++ empty_fold :: []))
  = Raise (ValueError "no samples").
Proof.
  apply (compute_bedroc_scores_first_failure share_scorer [fold_a] [] empty_fold
           [] [fl 5 1] (fl 20 1)).
  - reflexivity.
  - repeat constructor; by eexists.
  - constructor.
  - reflexivity.
Defined.

(** X4 at two folds with the scores 1/2 and 1. *)
Lemma compute_avg_auc_loss_of_two_scores :
  compute_avg_auc_loss pairwise_auc heron_sqrt (mk_Evaluation (PyResults <$> [fold_a; fold_b]))
  = Ok (Fin (1 - mean_over_folds (λ s, s) [qc 1 2; qc 1 1])%Qc,
        np_std heron_sqrt (Fin <$> [qc 1 2; qc 1 1])).
Proof.
  apply (compute_avg_auc_loss_in_terms_of_scores pairwise_auc heron_sqrt
           [fold_a; fold_b] [qc 1 2; qc 1 1]).
  - done.
  - reflexivity.
  - repeat constructor; compute_done.
Defined.

(** X5 at the same folds. *)
Lemma compute_avg_auc_loss_two_folds_bounded :
  ∃ avg std,
    compute_avg_auc_loss pairwise_auc heron_sqrt (mk_Evaluation (PyResults <$> [fold_a; fold_b]))
    = Ok (Fin avg, std)
    ∧ (0 ≤ avg)%Qc ∧ (avg ≤ 1)%Qc.
Proof.
  apply (compute_avg_auc_loss_between_0_and_1 pairwise_auc heron_sqrt
           [fold_a; fold_b] [qc 1 2; qc 1 1]).
  - done.
  - reflexivity.
  - repeat constructor; compute_done.
  - repeat constructor; compute_done.
Defined.

(** X6 at two folds of three and two samples: the curves have four and
    three points, and three are averaged. *)
Lemma compute_roc_curve_two_folds :
  ∃ fpr tpr,
    compute_roc_curve ranked_curve (mk_Evaluation (PyResults <$> [ranked_a; ranked_b]))
    = Ok (fpr, tpr)
    ∧ ([ranked_a; ranked_b] ≠ [] →
       fpr = mk_ndarray [shortest_curve (curve_of <$> [ranked_a; ranked_b])]
               (pointwise_mean ((curve_of <$> [ranked_a; ranked_b]).*1.*1)
                  (shortest_curve (curve_of <$> [ranked_a; ranked_b])))
       ∧ tpr = mk_ndarray [shortest_curve (curve_of <$> [ranked_a; ranked_b])]
                 (pointwise_mean ((curve_of <$> [ranked_a; ranked_b]).*1.*2)
                    (shortest_curve (curve_of <$> [ranked_a; ranked_b]))))
    ∧ ([ranked_a; ranked_b] = [] → fpr = mk_ndarray [] [NaN] ∧ tpr = mk_ndarray [] [NaN]).
Proof.
  apply (compute_roc_curve_pointwise_mean ranked_curve [ranked_a; ranked_b]
           (curve_of <$> [ranked_a; ranked_b])).
  - reflexivity.
  - repeat constructor.
  - repeat constructor.
Defined.

Example averaged_curve_of_two_folds :
  (λ c : ndarray float * ndarray float, (flat c.1, flat c.2))
    <$> compute_roc_curve ranked_curve (mk_Evaluation (PyResults <$> [ranked_a; ranked_b]))
  = Ok ([fl 0 1; fl 1 2; fl 1 1], [fl 0 1; fl 1 4; fl 3 4]).
Proof. compute_done. Qed.

(** X8 at scores for two alphas, two diseases and three models. *)
Lemma generate_bedroc_table_refusals_score_cube :
  (length two_alphas ≠ 2%nat →
   generate_bedroc_table heron_sqrt python_format_2e score_cube ["A"; "B"; "C"] two_alphas
     default_avg_bedroc_score_name default_std_bedroc_score_name = Raise (ValueError ""))
  ∧ (length two_alphas = 2%nat → (2%nat = 0%nat ∨ length ["A"; "B"; "C"] ≠ 3%nat) →
     is_ValueError
       (generate_bedroc_table heron_sqrt python_format_2e score_cube ["A"; "B"; "C"] two_alphas
          default_avg_bedroc_score_name default_std_bedroc_score_name))
  ∧ (length two_alphas = 2%nat → (0 < 2)%nat → length ["A"; "B"; "C"] = 3%nat →
     returns
       (generate_bedroc_table heron_sqrt python_format_2e score_cube ["A"; "B"; "C"] two_alphas
          default_avg_bedroc_score_name default_std_bedroc_score_name)).
Proof.
  apply (generate_bedroc_table_refusals heron_sqrt python_format_2e score_cube
           ["A"; "B"; "C"] two_alphas default_avg_bedroc_score_name
           default_std_bedroc_score_name 2 2 3).
  reflexivity.
Defined.

(** X9 at the same scores. *)
Lemma generate_bedroc_table_cells_score_cube :
  ∃ df,
    generate_bedroc_table heron_sqrt python_format_2e score_cube ["A"; "B"; "C"] two_alphas
      default_avg_bedroc_score_name default_std_bedroc_score_name = Ok df
    ∧ ∀ i j, (i < 3)%nat → (j < 2 * 2)%nat →
        iat df i j = Some (python_format_2e (bedroc_cell heron_sqrt score_cube 2 2 3 i j)).
Proof.
  apply (generate_bedroc_table_cells heron_sqrt python_format_2e score_cube
           ["A"; "B"; "C"] two_alphas default_avg_bedroc_score_name
           default_std_bedroc_score_name 2 2 3).
  - reflexivity.
  - lia.
  - reflexivity.
  - reflexivity.
Defined.

(** In the row of model A the second cell, headed as the standard
    deviation for the first alpha, is the mean of model B for that
    alpha. *)
Example second_cell_of_the_first_row :
  bedroc_cell heron_sqrt score_cube 2 2 3 0 1 = np_mean (along_diseases score_cube 2 3 0 1).
Proof. reflexivity. Qed.

End MoreInstances.

Section MoreLoaderInstances.
Import Reference Examples SideInformationLoader LoaderObject.




(** A column index of [2^63 - 1] asks for [2^63] columns: the
    constructor raises [OverflowError], also when the loop of
    [__call__] would have come to a frame of one column next. *)
Example to_coo_at_the_last_index :
  dimensions_overflow last_index_frame 0
  ∧ to_coo last_index_frame 0
    = Raise (OverflowError "Python int too large to convert to C long")
  ∧ (__call__ (ValueError "need at least one array to concatenate")
       [0; 1]%nat 0 {[0%nat := last_index_frame; 1%nat := one_column_frame]}).1
    = Raise (OverflowError "Python int too large to convert to C long").
Proof. split_and!; [compute_done..|reflexivity|reflexivity]. Qed.


Example the_frame_before_the_short_one :
  (__call__ (ValueError "need at least one array to concatenate")
     [0; 1]%nat 2 frames_with_a_short_one).2 !! 0%nat
  = Some (with_ones default_implicit_1s_name unscored_frame).
Proof. reflexivity. Qed.



Example width_of_two_frames : column_offset two_frames [0; 1]%nat 2 = 6.
Proof. reflexivity. Qed.


(** The second frame has the rows (0, 1) and (2, 1) and no scores: its
    block starts at column 4 and holds ones at these places. *)
Example entries_of_two_frames :
  (λ mat, (sp_entries mat !! (0, 5), sp_entries mat !! (2, 5), sp_entries mat !! (1, 5),
           sp_entries mat !! (2, 3)))
    <$> (__call__ (ValueError "need at least one array to concatenate")
           [0; 1]%nat 2 two_frames).1
  = Ok (Some 1%Qc, Some 1%Qc, None, Some (qc 7 1)).
Proof. compute_done. Qed.


Example shapes_logged_for_three_files :
  (logger (process_side_information (ValueError "need at least one array to concatenate")
             files python_format_underscore plain_markdown
             fresh_loader ["genes.csv"; "pathways.csv"] ["diseases.csv"] None).2).*2
  = [[ArgStr (plain_markdown
                (mk_DataFrame [LabelInt 0; LabelInt 1; LabelInt 2]
                   [("number of rows", ["2"; "2"; "1"]);
                    ("number of columns", ["3"; "2"; "3"])]))];
     [ArgShape (3, 6)]; [ArgShape (2, 1)]; []].
Proof. reflexivity. Qed.

Example one_million_with_underscores : python_format_underscore 1234567 = "1_234_567".
Proof. reflexivity. Qed.

(** X19 at three files and two names. *)
Lemma process_side_information_two_names_for_three_files :
  ∃ msg,
    process_side_information (ValueError "need at least one array to concatenate")
      files python_format_underscore plain_markdown
      fresh_loader ["genes.csv"; "pathways.csv"] ["diseases.csv"]
      (Some ("genes" :: ["diseases"]))
    = (Raise (ValueError msg), fresh_loader).
Proof.
  apply (process_side_information_refuses_other_names
           (ValueError "need at least one array to concatenate")
           files python_format_underscore plain_markdown fresh_loader
           ["genes.csv"; "pathways.csv"] ["diseases.csv"] "genes" ["diseases"]
           [scored_frame; unscored_frame] [single_frame]).
  - by repeat constructor.
  - by repeat constructor.
  - cbn. lia.
Defined.


(** X21 at a disease file that is empty. *)
Lemma process_side_information_empty_file :
  process_side_information (ValueError "need at least one array to concatenate")
    files python_format_underscore plain_markdown
    fresh_loader ["genes.csv"] ["diseases.csv"; "nothing.csv"] None
  = (Raise (ValueError "No columns to parse from file"), fresh_loader).
Proof.
  apply (process_side_information_unreadable_file
           (ValueError "need at least one array to concatenate")
           files python_format_underscore plain_markdown fresh_loader
           ["genes.csv"] ["diseases.csv"; "nothing.csv"] None
           ["genes.csv"; "diseases.csv"] [] "nothing.csv").
  - reflexivity.
  - repeat (apply Forall_cons_2; [by eexists|]). apply Forall_nil_2.
  - reflexivity.
Defined.


End MoreLoaderInstances.
